(** * Offboard control examples: a shallow embedding and its properties

    The repository is a set of example programs written against the MAVSDK
    C++ library.  Every program is a straight line of calls into the SDK
    (connect, discover, arm, send setpoints, start and stop offboard mode,
    read telemetry, send vision estimates) interleaved with console output
    and fixed sleeps.

    The programs are embedded as computations in a small monad [M] that
      - records every observable action as an [Event] of a trace,
      - takes the answers of the SDK from an environment [Env], and
      - distinguishes a normal [return] from a call of [exit], from a wait
        on a future that is never fulfilled and from an exhausted loop
        budget.

    Source files and the modules that embed them:
      - offboard_velocity.cpp           [OffboardVelocity]
      - offboard_velocity_working.cpp   [OffboardVelocityWorking]
      - offboard_attitude_control.cpp   [OffboardAttitudeControl]
      - offboard_telemetry_health.cpp   [OffboardTelemetryHealth]
      - offboard_read_blocking.cpp      [OffboardReadBlocking]
      - offboard_vision.cpp, lines 1-127      [OffboardVision]
      - offboard_vision.cpp, lines 127-472    [OffboardPositionControl]
        (a second translation unit stored in the same file). *)

From Stdlib Require Import List ZArith NArith QArith Qround String Ascii Bool Lia.
Import ListNotations.
Local Open Scope string_scope.
Local Open Scope list_scope.
Local Open Scope nat_scope.

Set Implicit Arguments.

(* ================================================================== *)
(** * Single precision numbers *)
(* ================================================================== *)

(** The programs only build [float] values from literals, except for one
    loop that evaluates [5.0f * sinf(i * step_size)] and one loop bound
    [unsigned(one_cycle / step_size)].  The arithmetic of binary32 is kept
    abstract: every definition and theorem below holds for any
    implementation of this interface. *)
Class Float32 : Type := {
  float : Type;
  (** the [float] a numeric literal of the source denotes *)
  lit : Q -> float;
  (** [(float)M_PI] *)
  M_PI_f : float;
  (** [NAN] *)
  NAN : float;
  fmul : float -> float -> float;
  fdiv : float -> float -> float;
  sinf : float -> float;
  (** conversion [unsigned -> float] *)
  float_of_unsigned : N -> float;
  (** conversion [float -> unsigned], written [unsigned(x)] *)
  unsigned_of_float : float -> N
}.

(** Arithmetic of [unsigned]: 32 bits, wrapping. *)
Definition UINT_MOD : N := 2 ^ 32.
Definition umul (a b : N) : N := ((a * b) mod UINT_MOD)%N.

(* ================================================================== *)
(** * The part of the SDK the programs use *)
(* ================================================================== *)

(** The result enumerations are declared in MAVSDK headers that are not
    part of the repository.  The programs only ever compare a result with
    [Success]; every other enumerator is represented by [Error code]. *)
Module ConnectionResult.
Inductive t : Type := Success | Error (code : nat).
Definition is_success (r : t) : bool :=
  match r with Success => true | Error _ => false end.
End ConnectionResult.

Module Action.
Inductive Result : Type := Success | Error (code : nat).
Definition is_success (r : Result) : bool :=
  match r with Success => true | Error _ => false end.
(** The commands of the Action plugin. *)
Inductive Command : Type := Arm | Disarm | Takeoff | Land | Kill.
End Action.

Module Mocap.
Inductive Result : Type := Success | Error (code : nat).
Definition is_success (r : Result) : bool :=
  match r with Success => true | Error _ => false end.

Section Messages.
Context {F : Float32}.
Record PositionBody : Type :=
  { x_m : float; y_m : float; z_m : float }.
Record Quaternion : Type :=
  { w : float; x : float; y : float; z : float }.
Record AngleBody : Type :=
  { roll_rad : float; pitch_rad : float; yaw_rad : float }.
Record AttitudePositionMocap : Type :=
  { apm_time_usec : N;
    q : Quaternion;
    apm_position_body : PositionBody;
    apm_covariance_matrix : list float }.
Record VisionPositionEstimate : Type :=
  { time_usec : N;
    position_body : PositionBody;
    angle_body : AngleBody;
    covariance_matrix : list float }.
End Messages.
End Mocap.

Module Offboard.
Inductive Result : Type := Success | Error (code : nat).
Definition is_success (r : Result) : bool :=
  match r with Success => true | Error _ => false end.

Section Setpoints.
Context {F : Float32}.

Record Attitude : Type :=
  { roll_deg : float; pitch_deg : float; yaw_deg : float;
    thrust_value : float }.
Record VelocityNedYaw : Type :=
  { north_m_s : float; east_m_s : float; down_m_s : float;
    vn_yaw_deg : float }.
Record VelocityBodyYawspeed : Type :=
  { forward_m_s : float; right_m_s : float; vb_down_m_s : float;
    yawspeed_deg_s : float }.
Record PositionNedYaw : Type :=
  { north_m : float; east_m : float; down_m : float;
    pn_yaw_deg : float }.

(** Value initialisation [T x{}]: every member is zero. *)
Definition zero : float := lit 0.
Definition Attitude0 : Attitude :=
  {| roll_deg := zero; pitch_deg := zero; yaw_deg := zero;
     thrust_value := zero |}.
Definition VelocityNedYaw0 : VelocityNedYaw :=
  {| north_m_s := zero; east_m_s := zero; down_m_s := zero;
     vn_yaw_deg := zero |}.
Definition VelocityBodyYawspeed0 : VelocityBodyYawspeed :=
  {| forward_m_s := zero; right_m_s := zero; vb_down_m_s := zero;
     yawspeed_deg_s := zero |}.
Definition PositionNedYaw0 : PositionNedYaw :=
  {| north_m := zero; east_m := zero; down_m := zero;
     pn_yaw_deg := zero |}.

(** Member assignments [x.field = v]. *)
Definition set_roll_deg (a : Attitude) (v : float) : Attitude :=
  {| roll_deg := v; pitch_deg := pitch_deg a; yaw_deg := yaw_deg a;
     thrust_value := thrust_value a |}.
Definition set_pitch_deg (a : Attitude) (v : float) : Attitude :=
  {| roll_deg := roll_deg a; pitch_deg := v; yaw_deg := yaw_deg a;
     thrust_value := thrust_value a |}.
Definition set_yaw_deg (a : Attitude) (v : float) : Attitude :=
  {| roll_deg := roll_deg a; pitch_deg := pitch_deg a; yaw_deg := v;
     thrust_value := thrust_value a |}.
Definition set_thrust_value (a : Attitude) (v : float) : Attitude :=
  {| roll_deg := roll_deg a; pitch_deg := pitch_deg a;
     yaw_deg := yaw_deg a; thrust_value := v |}.

Definition set_north_m_s (p : VelocityNedYaw) (v : float) : VelocityNedYaw :=
  {| north_m_s := v; east_m_s := east_m_s p; down_m_s := down_m_s p;
     vn_yaw_deg := vn_yaw_deg p |}.
Definition set_down_m_s (p : VelocityNedYaw) (v : float) : VelocityNedYaw :=
  {| north_m_s := north_m_s p; east_m_s := east_m_s p; down_m_s := v;
     vn_yaw_deg := vn_yaw_deg p |}.
Definition set_vn_yaw_deg (p : VelocityNedYaw) (v : float) : VelocityNedYaw :=
  {| north_m_s := north_m_s p; east_m_s := east_m_s p;
     down_m_s := down_m_s p; vn_yaw_deg := v |}.

Definition set_forward_m_s (p : VelocityBodyYawspeed) (v : float)
  : VelocityBodyYawspeed :=
  {| forward_m_s := v; right_m_s := right_m_s p;
     vb_down_m_s := vb_down_m_s p; yawspeed_deg_s := yawspeed_deg_s p |}.
Definition set_right_m_s (p : VelocityBodyYawspeed) (v : float)
  : VelocityBodyYawspeed :=
  {| forward_m_s := forward_m_s p; right_m_s := v;
     vb_down_m_s := vb_down_m_s p; yawspeed_deg_s := yawspeed_deg_s p |}.
Definition set_vb_down_m_s (p : VelocityBodyYawspeed) (v : float)
  : VelocityBodyYawspeed :=
  {| forward_m_s := forward_m_s p; right_m_s := right_m_s p;
     vb_down_m_s := v; yawspeed_deg_s := yawspeed_deg_s p |}.
Definition set_yawspeed_deg_s (p : VelocityBodyYawspeed) (v : float)
  : VelocityBodyYawspeed :=
  {| forward_m_s := forward_m_s p; right_m_s := right_m_s p;
     vb_down_m_s := vb_down_m_s p; yawspeed_deg_s := v |}.

Definition set_north_m (p : PositionNedYaw) (v : float) : PositionNedYaw :=
  {| north_m := v; east_m := east_m p; down_m := down_m p;
     pn_yaw_deg := pn_yaw_deg p |}.
Definition set_east_m (p : PositionNedYaw) (v : float) : PositionNedYaw :=
  {| north_m := north_m p; east_m := v; down_m := down_m p;
     pn_yaw_deg := pn_yaw_deg p |}.
Definition set_down_m (p : PositionNedYaw) (v : float) : PositionNedYaw :=
  {| north_m := north_m p; east_m := east_m p; down_m := v;
     pn_yaw_deg := pn_yaw_deg p |}.

(** What is handed to the offboard plugin by one of its [set_*]
    methods. *)
Inductive Setpoint : Type :=
| SetAttitude (a : Attitude)
| SetVelocityNed (v : VelocityNedYaw)
| SetVelocityBody (v : VelocityBodyYawspeed)
| SetPositionNed (p : PositionNedYaw).
End Setpoints.
End Offboard.

(** The telemetry samples handed to the callbacks of
    offboard_telemetry_health.cpp, with the members those callbacks
    read. *)
Module Telemetry.
Record Health : Type :=
  { is_gyrometer_calibration_ok : bool;
    is_accelerometer_calibration_ok : bool;
    is_magnetometer_calibration_ok : bool;
    is_local_position_ok : bool;
    is_global_position_ok : bool;
    is_home_position_ok : bool }.

Section Samples.
Context {F : Float32}.
Record RcStatus : Type :=
  { was_available_once : bool;
    is_available : bool;
    signal_strength_percent : float }.
End Samples.
End Telemetry.

(** A discovered system; [std::shared_ptr<System>] is [option System],
    the empty pointer being [None]. *)
Definition System : Type := nat.

Inductive Plugin : Type :=
| PAction | POffboard | PTelemetry | PMocap.

(** The polled telemetry getters of offboard_read_blocking.cpp. *)
Inductive TelemetryQuery : Type :=
| QPosition | QHome | QAttitudeQuaternion | QAttitudeEuler
| QAttitudeAngularVelocityBody | QFixedwingMetrics | QGroundTruth
| QVelocityNed | QGpsInfo | QBattery | QActuatorControlTarget
| QFlightMode | QLandedState.

(** The telemetry streams a program subscribes to. *)
Inductive TelemetryStream : Type :=
| SHealth | SRcStatus | SLandedState.

(* ================================================================== *)
(** * Events and traces *)
(* ================================================================== *)

Inductive Stream : Type := cout | cerr.

(** One operand of [<<]. *)
Inductive Item : Type :=
| Txt (s : string)
| Nl                                      (* '\n' *)
| Endl                                    (* std::endl *)
| ShowConnection (r : ConnectionResult.t)
| ShowAction (r : Action.Result)
| ShowOffboard (r : Offboard.Result)
| ShowMocap (r : Mocap.Result)
| ShowSize (n : nat)
| ShowTelemetry (q : TelemetryQuery)      (* the value just read *)
| ShowBool (b : bool)
| ShowDefault (type_name : string).       (* a default-constructed struct *)

(** How a computation ends. *)
Inductive Outcome (A : Type) : Type :=
| Returned (a : A)       (* the function returned [a] *)
| Exited (status : Z)    (* [exit(status)] ended the process *)
| Hangs                  (* blocked on a future that is never set *)
| OutOfFuel.             (* the loop budget of the model ran out *)
Arguments Exited {A} status.
Arguments Hangs {A}.
Arguments OutOfFuel {A}.

Section Events.
Context {F : Float32}.

Inductive Event : Type :=
| Print (s : Stream) (items : list Item)
| Sleep (ms : Z)
| MavsdkNew
| AddAnyConnection (url : string) (r : ConnectionResult.t)
| SubscribeOnNewSystem
| UnsubscribeOnNewSystem          (* subscribe_on_new_system(nullptr) *)
| WaitNewSystem (timeout_s : option Z) (found : option System)
| PluginNew (p : Plugin) (s : System)
| ActionCall (c : Action.Command) (r : Action.Result)
| OffboardSet (sp : Offboard.Setpoint)
| OffboardStart (r : Offboard.Result)
| OffboardStop (r : Offboard.Result)
| MocapAttitudePosition (m : Mocap.AttitudePositionMocap) (r : Mocap.Result)
| MocapVisionPosition (m : Mocap.VisionPositionEstimate) (r : Mocap.Result)
| TelemetrySubscribe (s : TelemetryStream)
| TelemetryUnsubscribe (s : TelemetryStream)
| TelemetryGet (q : TelemetryQuery)
| TelemetryInAir (b : bool)
| WaitInAir (timeout_s : Z) (ready : bool).

Definition Trace : Type := list Event.

(** ** The environment

    What the SDK answers at one point of a run. *)
Record Responses : Type := {
  connection_result : ConnectionResult.t;
  new_system : option System;     (* the autopilot found while waiting *)
  action_result : Action.Result;
  offboard_result : Offboard.Result;
  mocap_result : Mocap.Result;
  in_air : bool;                  (* telemetry.in_air() *)
  in_air_ready : bool             (* the in-air future is fulfilled *)
}.

(** The environment of a run: [env i] holds the answers available when
    [i] events have happened.  Quantifying over [Env] covers every
    behaviour of the vehicle and the link. *)
Definition Env : Type := nat -> Responses.

(** ** The monad

    A computation started when [n] events have happened yields an
    outcome and the events it adds. *)
Definition M (A : Type) : Type := Env -> nat -> Outcome A * Trace.

Definition ret {A} (a : A) : M A := fun _ _ => (Returned a, []).

Definition bind {A B} (m : M A) (k : A -> M B) : M B :=
  fun env n =>
    let (o, t1) := m env n in
    match o with
    | Returned a =>
        let (o2, t2) := k a env (n + List.length t1) in (o2, t1 ++ t2)
    | Exited c => (Exited c, t1)
    | Hangs => (Hangs, t1)
    | OutOfFuel => (OutOfFuel, t1)
    end.

Definition emit (e : Event) : M unit := fun _ _ => (Returned tt, [e]).

(** A call whose answer comes from the environment and is recorded. *)
Definition call {A} (answer : Responses -> A) (ev : A -> Event) : M A :=
  fun env n => let a := answer (env n) in (Returned a, [ev a]).

Definition exit {A} (status : Z) : M A := fun _ _ => (Exited status, []).
Definition hang {A} : M A := fun _ _ => (Hangs, []).
Definition out_of_fuel {A} : M A := fun _ _ => (OutOfFuel, []).

Definition outcome {A} (r : Outcome A * Trace) : Outcome A := fst r.
Definition trace {A} (r : Outcome A * Trace) : Trace := snd r.
End Events.

Declare Scope prog_scope.
Delimit Scope prog_scope with prog.
Notation "x <- m ;; k" := (bind m (fun x => k))
  (at level 61, m at next level, right associativity) : prog_scope.
Notation "m ;; k" := (bind m (fun _ => k))
  (at level 61, right associativity) : prog_scope.
Local Open Scope prog_scope.

(** <cstdlib>, as on the POSIX platforms the examples are built for. *)
Definition EXIT_SUCCESS : Z := 0.
Definition EXIT_FAILURE : Z := 1.

Section Primitives.
Context {F : Float32}.

Definition print (s : Stream) (items : list Item) : M unit :=
  emit (Print s items).

(** [sleep_for(seconds(n))] and [sleep_for(milliseconds(n))]. *)
Definition seconds (n : Z) : Z := (1000 * n)%Z.
Definition milliseconds (n : Z) : Z := n.
Definition sleep_for (ms : Z) : M unit := emit (Sleep ms).

Definition add_any_connection (url : string) : M ConnectionResult.t :=
  call connection_result (AddAnyConnection url).

Definition plugin_new (p : Plugin) (s : System) : M unit :=
  emit (PluginNew p s).

Definition action (c : Action.Command) : M Action.Result :=
  call action_result (ActionCall c).

(** The [set_*] methods; whatever they return is discarded by every
    caller in the repository. *)
Definition set_attitude (a : Offboard.Attitude) : M unit :=
  emit (OffboardSet (Offboard.SetAttitude a)).
Definition set_velocity_ned (v : Offboard.VelocityNedYaw) : M unit :=
  emit (OffboardSet (Offboard.SetVelocityNed v)).
Definition set_velocity_body (v : Offboard.VelocityBodyYawspeed) : M unit :=
  emit (OffboardSet (Offboard.SetVelocityBody v)).
Definition set_position_ned (p : Offboard.PositionNedYaw) : M unit :=
  emit (OffboardSet (Offboard.SetPositionNed p)).

Definition offboard_start : M Offboard.Result :=
  call offboard_result OffboardStart.
Definition offboard_stop : M Offboard.Result :=
  call offboard_result OffboardStop.

Definition telemetry_in_air : M bool := call in_air TelemetryInAir.

(** [for (unsigned i = from; i < from + count; ++i) body(i)] *)
Fixpoint for_loop (from count : nat) (body : nat -> M unit) : M unit :=
  match count with
  | O => ret tt
  | S c => body from ;; for_loop (S from) c body
  end.

(** [while (cond()) body()], cut off after [fuel] evaluations of the
    condition. *)
Fixpoint while_loop (fuel : nat) (cond : M bool) (body : M unit) : M unit :=
  match fuel with
  | O => out_of_fuel
  | S f =>
      b <- cond ;;
      if b then body ;; while_loop f cond body else ret tt
  end.
End Primitives.

(* ================================================================== *)
(** * Code shared by several programs *)
(* ================================================================== *)

(** [usage] and [get_system] are repeated word for word in
    offboard_velocity_working.cpp, offboard_attitude_control.cpp,
    offboard_telemetry_health.cpp, offboard_read_blocking.cpp and both
    translation units of offboard_vision.cpp; they are embedded once. *)
Module Shared.
Section Shared.
Context {F : Float32}.

Definition usage_text (bin_name : string) : list Item :=
  [ Txt "Usage : "; Txt bin_name; Txt " <connection_url>"; Nl;
    Txt "Connection URL format should be :"; Nl;
    Txt " For TCP : tcp://[server_host][:server_port]"; Nl;
    Txt " For UDP : udp://[bind_host][:bind_port]"; Nl;
    Txt " For Serial : serial:///path/to/serial/dev[:baudrate]"; Nl;
    Txt "For example, to connect to the simulator use URL: udp://:14540";
    Nl ].

Definition usage (bin_name : string) : M unit :=
  print cerr (usage_text bin_name).

(** The callback given to [subscribe_on_new_system] runs on a thread of
    the SDK while the caller waits on the future; what it prints and
    its unsubscribing are recorded after the wait that reports its
    result.  [fut.wait_for] times out exactly when the environment
    finds no autopilot. *)
Definition get_system : M (option System) :=
  print cout [Txt "Waiting to discover system..."; Nl] ;;
  emit SubscribeOnNewSystem ;;
  found <- call new_system (WaitNewSystem (Some 3%Z)) ;;
  match found with
  | None =>
      print cerr [Txt "No autopilot found."; Nl] ;;
      ret None
  | Some system =>
      print cout [Txt "Discovered autopilot"; Nl] ;;
      emit UnsubscribeOnNewSystem ;;
      ret (Some system)
  end.

(** [while (telemetry.in_air()) { ... }], the wait that ends [main] in
    offboard_velocity_working.cpp and in the second unit of
    offboard_vision.cpp; [fuel] bounds the number of polls. *)
Definition landing_wait (fuel : nat) : M unit :=
  while_loop fuel telemetry_in_air
    (print cout [Txt "Vehicle is landing..."; Nl] ;;
     sleep_for (seconds 1)).
End Shared.
End Shared.

(* ================================================================== *)
(** * offboard_velocity_working.cpp *)
(* ================================================================== *)

Module OffboardVelocityWorking.
Section Program.
Context {F : Float32}.

Definition usage := Shared.usage.
Definition get_system := Shared.get_system.

(** The constants of the block at lines 88-103. *)
Definition step_size : float := lit (1 # 100).
Definition one_cycle : float := fmul (lit 2) M_PI_f.
Definition steps : N := umul 2 (unsigned_of_float (fdiv one_cycle step_size)).

(** One iteration of the loop at lines 95-102. *)
Definition north_and_back_south_step (i : nat) : M unit :=
  let vx := fmul (lit 5) (sinf (fmul (float_of_unsigned (N.of_nat i)) step_size)) in
  let north_and_back_south := Offboard.VelocityNedYaw0 in
  let north_and_back_south := Offboard.set_north_m_s north_and_back_south vx in
  let north_and_back_south := Offboard.set_vn_yaw_deg north_and_back_south (lit 90) in
  set_velocity_ned north_and_back_south ;;
  sleep_for (milliseconds 10).

(** Lines 121-131: what runs once the message of the last step is
    printed, with the two locals that are in scope. *)
Definition offb_ctrl_ned_go_down
    (up_and_south down_and_north : Offboard.VelocityNedYaw) : M bool :=
  set_velocity_ned down_and_north ;;
  sleep_for (seconds 4) ;;
  offboard_result <- offboard_stop ;;
  if negb (Offboard.is_success offboard_result) then
    print cerr [Txt "Offboard stop failed: "; ShowOffboard offboard_result; Nl] ;;
    ret false
  else
  print cout [Txt "Offboard stopped"; Nl] ;;
  ret true.

(** Offboard control using NED co-ordinates (lines 67-132). *)
Definition offb_ctrl_ned : M bool :=
  print cout [Txt "Starting Offboard velocity control in NED coordinates"; Nl] ;;
  let stay := Offboard.VelocityNedYaw0 in
  set_velocity_ned stay ;;
  offboard_result <- offboard_start ;;
  if negb (Offboard.is_success offboard_result) then
    print cerr [Txt "Offboard start failed: "; ShowOffboard offboard_result; Nl] ;;
    ret false
  else
  print cout [Txt "Offboard started"; Nl] ;;
  print cout [Txt "Turn to face East"; Nl] ;;
  let turn_east := Offboard.VelocityNedYaw0 in
  let turn_east := Offboard.set_vn_yaw_deg turn_east (lit 90) in
  set_velocity_ned turn_east ;;
  sleep_for (seconds 1) ;;
  print cout [Txt "Go North and back South"; Nl] ;;
  for_loop 0 (N.to_nat steps) north_and_back_south_step ;;
  print cout [Txt "Turn to face West"; Nl] ;;
  let turn_west := Offboard.VelocityNedYaw0 in
  let turn_west := Offboard.set_vn_yaw_deg turn_west (lit 270) in
  set_velocity_ned turn_west ;;
  sleep_for (seconds 2) ;;
  print cout [Txt "Go up 2 m/s, turn to face South"; Nl] ;;
  let up_and_south := Offboard.VelocityNedYaw0 in
  let up_and_south := Offboard.set_down_m_s up_and_south (lit (-2)) in
  let up_and_south := Offboard.set_vn_yaw_deg up_and_south (lit 180) in
  set_velocity_ned up_and_south ;;
  sleep_for (seconds 4) ;;
  print cout [Txt "Go down 1 m/s, turn to face North"; Nl] ;;
  let down_and_north := Offboard.VelocityNedYaw0 in
  let up_and_south := Offboard.set_down_m_s up_and_south (lit 1) in
  offb_ctrl_ned_go_down up_and_south down_and_north.

(** Offboard control using body co-ordinates (lines 142-203). *)
Definition offb_ctrl_body : M bool :=
  print cout [Txt "Starting Offboard velocity control in body coordinates"; Nl] ;;
  let stay := Offboard.VelocityBodyYawspeed0 in
  set_velocity_body stay ;;
  offboard_result <- offboard_start ;;
  if negb (Offboard.is_success offboard_result) then
    print cerr [Txt "Offboard start failed: "; ShowOffboard offboard_result; Nl] ;;
    ret false
  else
  print cout [Txt "Offboard started"; Nl] ;;
  print cout [Txt "Turn clock-wise and climb"; Nl] ;;
  let cc_and_climb := Offboard.VelocityBodyYawspeed0 in
  let cc_and_climb := Offboard.set_vb_down_m_s cc_and_climb (lit (-1)) in
  let cc_and_climb := Offboard.set_yawspeed_deg_s cc_and_climb (lit 60) in
  set_velocity_body cc_and_climb ;;
  sleep_for (seconds 5) ;;
  print cout [Txt "Turn back anti-clockwise"; Nl] ;;
  let ccw := Offboard.VelocityBodyYawspeed0 in
  let ccw := Offboard.set_vb_down_m_s ccw (lit (-1)) in
  let ccw := Offboard.set_yawspeed_deg_s ccw (lit (-60)) in
  set_velocity_body ccw ;;
  sleep_for (seconds 5) ;;
  print cout [Txt "Wait for a bit"; Nl] ;;
  set_velocity_body stay ;;
  sleep_for (seconds 2) ;;
  print cout [Txt "Fly a circle"; Nl] ;;
  let circle := Offboard.VelocityBodyYawspeed0 in
  let circle := Offboard.set_forward_m_s circle (lit 5) in
  let circle := Offboard.set_yawspeed_deg_s circle (lit 30) in
  set_velocity_body circle ;;
  sleep_for (seconds 15) ;;
  print cout [Txt "Wait for a bit"; Nl] ;;
  set_velocity_body stay ;;
  sleep_for (seconds 5) ;;
  print cout [Txt "Fly a circle sideways"; Nl] ;;
  let circle := Offboard.set_right_m_s circle (lit (-5)) in
  let circle := Offboard.set_yawspeed_deg_s circle (lit 30) in
  set_velocity_body circle ;;
  sleep_for (seconds 15) ;;
  print cout [Txt "Wait for a bit"; Nl] ;;
  set_velocity_body stay ;;
  sleep_for (seconds 8) ;;
  offboard_result <- offboard_stop ;;
  if negb (Offboard.is_success offboard_result) then
    print cerr [Txt "Offboard stop failed: "; ShowOffboard offboard_result; Nl] ;;
    ret false
  else
  print cout [Txt "Offboard stopped"; Nl] ;;
  ret true.

(** Offboard control using attitude commands (lines 210-253); the
    call of [offboard.stop()] is commented out. *)
Definition offb_ctrl_attitude : M bool :=
  print cout [Txt "Starting Offboard attitude control"; Nl] ;;
  let roll := Offboard.Attitude0 in
  let roll := Offboard.set_roll_deg roll (lit 30) in
  let roll := Offboard.set_thrust_value roll (lit (6 # 10)) in
  set_attitude roll ;;
  offboard_result <- offboard_start ;;
  if negb (Offboard.is_success offboard_result) then
    print cerr [Txt "Offboard start failed: "; ShowOffboard offboard_result; Nl] ;;
    ret false
  else
  print cout [Txt "Offboard started"; Nl] ;;
  print cout [Txt "Roll 30 degrees to the right"; Nl] ;;
  set_attitude roll ;;
  sleep_for (seconds 2) ;;
  print cout [Txt "Stay horizontal"; Nl] ;;
  let roll := Offboard.set_roll_deg roll (lit 0) in
  set_attitude roll ;;
  sleep_for (seconds 1) ;;
  print cout [Txt "Roll 30 degrees to the left"; Nl] ;;
  let roll := Offboard.set_roll_deg roll (lit (-30)) in
  set_attitude roll ;;
  sleep_for (seconds 2) ;;
  print cout [Txt "Stay horizontal"; Nl] ;;
  let roll := Offboard.set_roll_deg roll (lit 0) in
  set_attitude roll ;;
  sleep_for (seconds 2) ;;
  ret true.

(** The callback of [subscribe_landed_state] prints when the vehicle is
    in the air; it is recorded after the first wait that finds the
    future fulfilled. *)
Definition in_air_callback : M unit :=
  print cout [Txt "Taking off has finished"; Nl; Txt "."] ;;
  emit (TelemetryUnsubscribe SLandedState).

(** [argc] is [1 + length args]; [argv[0]] is [bin_name]. *)
Definition main (fuel : nat) (bin_name : string) (args : list string) : M Z :=
  let argc := S (List.length args) in
  if negb (argc =? 2) then
    usage bin_name ;;
    ret 1%Z
  else
  emit MavsdkNew ;;
  connection_result <- add_any_connection (nth 0 args "") ;;
  if negb (ConnectionResult.is_success connection_result) then
    print cerr [Txt "Connection failed: "; ShowConnection connection_result; Nl] ;;
    ret 1%Z
  else
  system <- get_system ;;
  match system with
  | None => ret 1%Z
  | Some system =>
  plugin_new PAction system ;;
  plugin_new POffboard system ;;
  plugin_new PTelemetry system ;;
  print cout [Txt "System is ready"; Nl] ;;
  arm_result <- action Action.Arm ;;
  if negb (Action.is_success arm_result) then
    print cerr [Txt "Arming failed: "; ShowAction arm_result; Nl] ;;
    ret 1%Z
  else
  print cout [Txt "Armed"; Nl] ;;
  takeoff_result <- action Action.Takeoff ;;
  if negb (Action.is_success takeoff_result) then
    print cerr [Txt "Takeoff failed: "; ShowAction takeoff_result; Nl] ;;
    ret 1%Z
  else
  emit (TelemetrySubscribe SLandedState) ;;
  ready10 <- call in_air_ready (WaitInAir 10) ;;
  (if ready10 then in_air_callback else ret tt) ;;
  ready3 <- call in_air_ready (WaitInAir 3) ;;
  (if ready3 && negb ready10 then in_air_callback else ret tt) ;;
  if negb ready3 then
    print cerr [Txt "Takeoff timed out."; Nl] ;;
    ret 1%Z
  else
  ok <- offb_ctrl_attitude ;;
  if negb ok then ret 1%Z else
  land_result <- action Action.Land ;;
  if negb (Action.is_success land_result) then
    print cerr [Txt "Landing failed: "; ShowAction land_result; Nl] ;;
    ret 1%Z
  else
  Shared.landing_wait fuel ;;
  print cout [Txt "Landed!"; Nl] ;;
  sleep_for (seconds 3) ;;
  print cout [Txt "Finished..."; Nl] ;;
  ret 0%Z
  end.
End Program.
End OffboardVelocityWorking.

(* ================================================================== *)
(** * offboard_attitude_control.cpp *)
(* ================================================================== *)

Module OffboardAttitudeControl.
Section Program.
Context {F : Float32}.

Definition usage := Shared.usage.
Definition get_system := Shared.get_system.

(** The four assignments that precede every [set_attitude] of this
    file. *)
Definition assign (attitude_msg : Offboard.Attitude)
    (roll pitch yaw thrust : float) : Offboard.Attitude :=
  let attitude_msg := Offboard.set_roll_deg attitude_msg roll in
  let attitude_msg := Offboard.set_pitch_deg attitude_msg pitch in
  let attitude_msg := Offboard.set_yaw_deg attitude_msg yaw in
  Offboard.set_thrust_value attitude_msg thrust.

(** Lines 67-211; the call of [offboard.stop()] is commented out. *)
Definition offb_ctrl_attitude : M bool :=
  print cout [Txt "Starting Offboard attitude control"; Nl] ;;
  let attitude_msg := Offboard.Attitude0 in
  let attitude_msg := assign attitude_msg (lit 0) (lit 0) (lit 0) (lit (1 # 10)) in
  set_attitude attitude_msg ;;
  offboard_result <- offboard_start ;;
  if negb (Offboard.is_success offboard_result) then
    print cerr [Txt "Offboard start failed: "; ShowOffboard offboard_result; Nl] ;;
    ret false
  else
  print cout [Txt "Offboard started"; Nl] ;;
  print cout [Txt "Stay horizontal"; Nl] ;;
  let attitude_msg := assign attitude_msg (lit 0) (lit 0) (lit 0) (lit (15 # 100)) in
  set_attitude attitude_msg ;;
  sleep_for (seconds 3) ;;
  print cout [Txt "Roll 30 degrees to the left"; Nl] ;;
  let attitude_msg := assign attitude_msg (lit 30) (lit 0) (lit 0) (lit (15 # 100)) in
  set_attitude attitude_msg ;;
  sleep_for (seconds 1) ;;
  print cout [Txt "Roll to hover position"; Nl] ;;
  let attitude_msg := assign attitude_msg (lit 0) (lit 0) (lit 0) (lit (15 # 100)) in
  set_attitude attitude_msg ;;
  sleep_for (seconds 1) ;;
  print cout [Txt "Roll 30 degrees to the right"; Nl] ;;
  let attitude_msg := assign attitude_msg (lit (-30)) (lit 0) (lit 0) (lit (15 # 100)) in
  set_attitude attitude_msg ;;
  sleep_for (seconds 1) ;;
  print cout [Txt "Stay horizontal"; Nl] ;;
  let attitude_msg := assign attitude_msg (lit 0) (lit 0) (lit 0) (lit (15 # 100)) in
  set_attitude attitude_msg ;;
  sleep_for (seconds 1) ;;
  print cout [Txt "Stay horizontal"; Nl] ;;
  let attitude_msg := assign attitude_msg (lit 0) (lit 0) (lit 0) (lit (2 # 10)) in
  set_attitude attitude_msg ;;
  sleep_for (seconds 1) ;;
  print cout [Txt "Set thrust to zero"; Nl] ;;
  let attitude_msg := assign attitude_msg (lit 0) (lit 0) (lit 0) (lit 0) in
  set_attitude attitude_msg ;;
  sleep_for (seconds 2) ;;
  ret true.

Definition main (bin_name : string) (args : list string) : M Z :=
  let argc := S (List.length args) in
  if negb (argc =? 2) then
    usage bin_name ;;
    ret 1%Z
  else
  emit MavsdkNew ;;
  connection_result <- add_any_connection (nth 0 args "") ;;
  if negb (ConnectionResult.is_success connection_result) then
    print cerr [Txt "Connection failed: "; ShowConnection connection_result; Nl] ;;
    ret 1%Z
  else
  system <- get_system ;;
  match system with
  | None => ret 1%Z
  | Some system =>
  plugin_new PAction system ;;
  plugin_new POffboard system ;;
  plugin_new PTelemetry system ;;
  print cout [Txt "System is ready"; Nl] ;;
  arm_result <- action Action.Arm ;;
  if negb (Action.is_success arm_result) then
    print cerr [Txt "Arming failed: "; ShowAction arm_result; Nl] ;;
    ret 1%Z
  else
  print cout [Txt "Armed"; Nl] ;;
  ok <- offb_ctrl_attitude ;;
  if negb ok then ret 1%Z else
  _ <- action Action.Kill ;;
  print cout [Txt "Killing Motors"] ;;
  sleep_for (seconds 2) ;;
  print cout [Txt "Finished..."; Nl] ;;
  ret 0%Z
  end.
End Program.
End OffboardAttitudeControl.

(* ================================================================== *)
(** * offboard_telemetry_health.cpp *)
(* ================================================================== *)

(** [print_health] and [print_rc_status] are callbacks the SDK invokes on
    its own thread when telemetry arrives; [main] only registers them. *)
Module OffboardTelemetryHealth.
Section Program.
Context {F : Float32}.

Definition usage := Shared.usage.
Definition get_system := Shared.get_system.

(** [(flag ? "ok" : "not ok")] *)
Definition ok_or_not (flag : bool) : string :=
  if flag then "ok" else "not ok".

(** Check telemetry health (lines 64-81). *)
Definition print_health (health : Telemetry.Health) : M unit :=
  print cout [Txt "Got health: "; Nl] ;;
  print cout [Txt "Gyro calibration:  ";
              Txt (ok_or_not (Telemetry.is_gyrometer_calibration_ok health));
              Nl] ;;
  print cout [Txt "Accel calibration: ";
              Txt (ok_or_not
                     (Telemetry.is_accelerometer_calibration_ok health));
              Nl] ;;
  print cout [Txt "Mag calibration:   ";
              Txt (ok_or_not
                     (Telemetry.is_magnetometer_calibration_ok health));
              Nl] ;;
  print cout [Txt "Local position:    ";
              Txt (ok_or_not (Telemetry.is_local_position_ok health)); Nl] ;;
  print cout [Txt "Global position:   ";
              Txt (ok_or_not (Telemetry.is_global_position_ok health)); Nl] ;;
  print cout [Txt "Home position:     ";
              Txt (ok_or_not (Telemetry.is_home_position_ok health)); Nl].

(** Lines 83-89.  [show_float] is [operator<<] of the standard library
    for [float]. *)
Definition print_rc_status (show_float : float -> string)
    (rc_status : Telemetry.RcStatus) : M unit :=
  print cout [Txt "RC available: ";
              Txt (if Telemetry.is_available rc_status then "yes" else "no");
              Nl] ;;
  print cout [Txt "RC available once: ";
              Txt (if Telemetry.was_available_once rc_status
                   then "yes" else "no");
              Nl] ;;
  print cout [Txt "RC RSSI: ";
              Txt (show_float (Telemetry.signal_strength_percent rc_status));
              Nl].

Definition main (bin_name : string) (args : list string) : M Z :=
  let argc := S (List.length args) in
  if negb (argc =? 2) then
    usage bin_name ;;
    ret 1%Z
  else
  emit MavsdkNew ;;
  connection_result <- add_any_connection (nth 0 args "") ;;
  if negb (ConnectionResult.is_success connection_result) then
    print cerr [Txt "Connection failed: "; ShowConnection connection_result; Nl] ;;
    ret 1%Z
  else
  system <- get_system ;;
  match system with
  | None => ret 1%Z
  | Some system =>
  plugin_new PTelemetry system ;;
  plugin_new PMocap system ;;
  print cout [Txt "System is ready"; Nl] ;;
  sleep_for (seconds 1) ;;
  emit (TelemetrySubscribe SHealth) ;;
  emit (TelemetrySubscribe SRcStatus) ;;
  sleep_for (seconds 3) ;;
  sleep_for (milliseconds 500) ;;
  sleep_for (seconds 1) ;;
  print cout [Txt "Finished..."; Nl] ;;
  ret 0%Z
  end.
End Program.
End OffboardTelemetryHealth.

(* ================================================================== *)
(** * offboard_read_blocking.cpp *)
(* ================================================================== *)

Module OffboardReadBlocking.
Section Program.
Context {F : Float32}.

Definition usage := Shared.usage.
Definition get_system := Shared.get_system.

(** [std::cout << label << telemetry.getter() << '\n'] *)
Definition show (label : string) (q : TelemetryQuery) : M unit :=
  emit (TelemetryGet q) ;;
  print cout [Txt label; ShowTelemetry q; Nl].

(** The body of the loop at lines 92-111. *)
Definition read_all (i : nat) : M unit :=
  show "Position: " QPosition ;;
  show "Home Position: " QHome ;;
  show "Attitude: " QAttitudeQuaternion ;;
  show "Attitude: " QAttitudeEuler ;;
  show "Angular velocity: " QAttitudeAngularVelocityBody ;;
  show "Fixed wing metrics: " QFixedwingMetrics ;;
  show "Ground Truth: " QGroundTruth ;;
  show "Velocity: " QVelocityNed ;;
  show "GPS Info: " QGpsInfo ;;
  show "Battery: " QBattery ;;
  show "Actuators: " QActuatorControlTarget ;;
  show "Flight mode: " QFlightMode ;;
  emit (TelemetryGet QLandedState) ;;
  b <- telemetry_in_air ;;
  print cout [Txt "Landed state: "; ShowTelemetry QLandedState;
              Txt "(in air: "; ShowBool b; Txt ")"; Nl] ;;
  sleep_for (milliseconds 500).

Definition main (bin_name : string) (args : list string) : M Z :=
  let argc := S (List.length args) in
  if negb (argc =? 2) then
    usage bin_name ;;
    ret 1%Z
  else
  emit MavsdkNew ;;
  connection_result <- add_any_connection (nth 0 args "") ;;
  if negb (ConnectionResult.is_success connection_result) then
    print cerr [Txt "Connection failed: "; ShowConnection connection_result; Nl] ;;
    ret 1%Z
  else
  system <- get_system ;;
  match system with
  | None => ret 1%Z
  | Some system =>
  plugin_new PTelemetry system ;;
  print cout [Txt "System is ready"; Nl] ;;
  for_loop 0 10 read_all ;;
  sleep_for (seconds 3) ;;
  print cout [Txt "Finished..."; Nl] ;;
  ret 0%Z
  end.
End Program.
End OffboardReadBlocking.

(* ================================================================== *)
(** * offboard_vision.cpp, first translation unit (lines 1-127) *)
(* ================================================================== *)

Module OffboardVision.
Section Program.
Context {F : Float32}.

Definition usage := Shared.usage.
Definition get_system := Shared.get_system.

(** The message built at lines 89-110. *)
Definition vision_msg : Mocap.VisionPositionEstimate :=
  {| Mocap.time_usec := 0%N;
     Mocap.position_body :=
       {| Mocap.x_m := lit (12 # 10); Mocap.y_m := lit (34 # 10);
          Mocap.z_m := lit (56 # 10) |};
     Mocap.angle_body :=
       {| Mocap.roll_rad := lit 0; Mocap.pitch_rad := lit 0;
          Mocap.yaw_rad := lit 1 |};
     Mocap.covariance_matrix := [NAN] |}.

(** The body of the loop at lines 113-117: the result of the send is
    printed and not looked at. *)
Definition send_position (i : nat) : M unit :=
  result <- call mocap_result (MocapVisionPosition vision_msg) ;;
  print cout [Txt "Position sent"; ShowMocap result; Endl] ;;
  sleep_for (milliseconds 30).

Definition main (bin_name : string) (args : list string) : M Z :=
  let argc := S (List.length args) in
  if negb (argc =? 2) then
    usage bin_name ;;
    ret 1%Z
  else
  emit MavsdkNew ;;
  connection_result <- add_any_connection (nth 0 args "") ;;
  if negb (ConnectionResult.is_success connection_result) then
    print cerr [Txt "Connection failed: "; ShowConnection connection_result; Nl] ;;
    ret 1%Z
  else
  system <- get_system ;;
  match system with
  | None => ret 1%Z
  | Some system =>
  plugin_new PTelemetry system ;;
  plugin_new PMocap system ;;
  print cout [Txt "System is ready"; Nl] ;;
  sleep_for (seconds 1) ;;
  print cout [Txt "Size:";
              ShowSize (List.length (Mocap.covariance_matrix vision_msg))] ;;
  for_loop 0 100 send_position ;;
  sleep_for (milliseconds 500) ;;
  sleep_for (seconds 1) ;;
  print cout [Txt "Finished..."; Nl] ;;
  ret 0%Z
  end.
End Program.
End OffboardVision.

(* ================================================================== *)
(** * offboard_vision.cpp, second translation unit (lines 127-472) *)
(* ================================================================== *)

Module OffboardPositionControl.
Section Program.
Context {F : Float32}.

Definition usage := Shared.usage.
Definition get_system := Shared.get_system.

(** Offboard control using NED co-ordinates (lines 194-254): primed
    with a velocity setpoint, then driven by position setpoints.  Every
    step prints the same line. *)
Definition offb_ctrl_ned : M bool :=
  print cout [Txt "Starting Offboard velocity control in NED coordinates"; Nl] ;;
  let stay := Offboard.VelocityNedYaw0 in
  set_velocity_ned stay ;;
  offboard_result <- offboard_start ;;
  if negb (Offboard.is_success offboard_result) then
    print cerr [Txt "Offboard start failed: "; ShowOffboard offboard_result; Nl] ;;
    ret false
  else
  print cout [Txt "Offboard started"; Nl] ;;
  print cout [Txt "Turn to face East"; Nl] ;;
  print cout [Txt "Go up 0.5 m east"; Nl] ;;
  let position_msg := Offboard.PositionNedYaw0 in
  let position_msg := Offboard.set_down_m position_msg (lit (-2)) in
  set_position_ned position_msg ;;
  sleep_for (seconds 5) ;;
  print cout [Txt "Go up 0.5 m east"; Nl] ;;
  let position_msg := Offboard.set_north_m position_msg (lit 1) in
  set_position_ned position_msg ;;
  sleep_for (seconds 5) ;;
  print cout [Txt "Go up 0.5 m east"; Nl] ;;
  let position_msg := Offboard.set_east_m position_msg (lit 1) in
  set_position_ned position_msg ;;
  sleep_for (seconds 5) ;;
  print cout [Txt "Go up 0.5 m east"; Nl] ;;
  let position_msg := Offboard.set_north_m position_msg (lit 0) in
  set_position_ned position_msg ;;
  sleep_for (seconds 5) ;;
  print cout [Txt "Go up 0.5 m east"; Nl] ;;
  let position_msg := Offboard.set_east_m position_msg (lit 0) in
  set_position_ned position_msg ;;
  sleep_for (seconds 5) ;;
  offboard_result <- offboard_stop ;;
  if negb (Offboard.is_success offboard_result) then
    print cerr [Txt "Offboard stop failed: "; ShowOffboard offboard_result; Nl] ;;
    ret false
  else
  print cout [Txt "Offboard stopped"; Nl] ;;
  ret true.

(** Offboard control using body co-ordinates (lines 264-325): as in
    offboard_velocity_working.cpp, with 0.1 m/s in place of 1 m/s. *)
Definition offb_ctrl_body : M bool :=
  print cout [Txt "Starting Offboard velocity control in body coordinates"; Nl] ;;
  let stay := Offboard.VelocityBodyYawspeed0 in
  set_velocity_body stay ;;
  offboard_result <- offboard_start ;;
  if negb (Offboard.is_success offboard_result) then
    print cerr [Txt "Offboard start failed: "; ShowOffboard offboard_result; Nl] ;;
    ret false
  else
  print cout [Txt "Offboard started"; Nl] ;;
  print cout [Txt "Turn clock-wise and climb"; Nl] ;;
  let cc_and_climb := Offboard.VelocityBodyYawspeed0 in
  let cc_and_climb := Offboard.set_vb_down_m_s cc_and_climb (lit (-1 # 10)) in
  let cc_and_climb := Offboard.set_yawspeed_deg_s cc_and_climb (lit 60) in
  set_velocity_body cc_and_climb ;;
  sleep_for (seconds 5) ;;
  print cout [Txt "Turn back anti-clockwise"; Nl] ;;
  let ccw := Offboard.VelocityBodyYawspeed0 in
  let ccw := Offboard.set_vb_down_m_s ccw (lit (-1 # 10)) in
  let ccw := Offboard.set_yawspeed_deg_s ccw (lit (-60)) in
  set_velocity_body ccw ;;
  sleep_for (seconds 5) ;;
  print cout [Txt "Wait for a bit"; Nl] ;;
  set_velocity_body stay ;;
  sleep_for (seconds 2) ;;
  print cout [Txt "Fly a circle"; Nl] ;;
  let circle := Offboard.VelocityBodyYawspeed0 in
  let circle := Offboard.set_forward_m_s circle (lit 5) in
  let circle := Offboard.set_yawspeed_deg_s circle (lit 30) in
  set_velocity_body circle ;;
  sleep_for (seconds 15) ;;
  print cout [Txt "Wait for a bit"; Nl] ;;
  set_velocity_body stay ;;
  sleep_for (seconds 5) ;;
  print cout [Txt "Fly a circle sideways"; Nl] ;;
  let circle := Offboard.set_right_m_s circle (lit (-5)) in
  let circle := Offboard.set_yawspeed_deg_s circle (lit 30) in
  set_velocity_body circle ;;
  sleep_for (seconds 15) ;;
  print cout [Txt "Wait for a bit"; Nl] ;;
  set_velocity_body stay ;;
  sleep_for (seconds 8) ;;
  offboard_result <- offboard_stop ;;
  if negb (Offboard.is_success offboard_result) then
    print cerr [Txt "Offboard stop failed: "; ShowOffboard offboard_result; Nl] ;;
    ret false
  else
  print cout [Txt "Offboard stopped"; Nl] ;;
  ret true.

(** Offboard control using attitude commands (lines 332-375): here
    [offboard.stop()] is called and checked. *)
Definition offb_ctrl_attitude : M bool :=
  print cout [Txt "Starting Offboard attitude control"; Nl] ;;
  let roll := Offboard.Attitude0 in
  let roll := Offboard.set_roll_deg roll (lit 30) in
  let roll := Offboard.set_thrust_value roll (lit (6 # 10)) in
  set_attitude roll ;;
  offboard_result <- offboard_start ;;
  if negb (Offboard.is_success offboard_result) then
    print cerr [Txt "Offboard start failed: "; ShowOffboard offboard_result; Nl] ;;
    ret false
  else
  print cout [Txt "Offboard started"; Nl] ;;
  print cout [Txt "Roll 30 degrees to the right"; Nl] ;;
  set_attitude roll ;;
  sleep_for (seconds 2) ;;
  print cout [Txt "Stay horizontal"; Nl] ;;
  let roll := Offboard.set_roll_deg roll (lit 0) in
  set_attitude roll ;;
  sleep_for (seconds 1) ;;
  print cout [Txt "Roll 30 degrees to the left"; Nl] ;;
  let roll := Offboard.set_roll_deg roll (lit (-30)) in
  set_attitude roll ;;
  sleep_for (seconds 2) ;;
  print cout [Txt "Stay horizontal"; Nl] ;;
  let roll := Offboard.set_roll_deg roll (lit 0) in
  set_attitude roll ;;
  sleep_for (seconds 2) ;;
  offboard_result <- offboard_stop ;;
  if negb (Offboard.is_success offboard_result) then
    print cerr [Txt "Offboard stop failed: "; ShowOffboard offboard_result; Nl] ;;
    ret false
  else
  print cout [Txt "Offboard stopped"; Nl] ;;
  ret true.

Definition main (fuel : nat) (bin_name : string) (args : list string) : M Z :=
  let argc := S (List.length args) in
  if negb (argc =? 2) then
    usage bin_name ;;
    ret 1%Z
  else
  emit MavsdkNew ;;
  connection_result <- add_any_connection (nth 0 args "") ;;
  if negb (ConnectionResult.is_success connection_result) then
    print cerr [Txt "Connection failed: "; ShowConnection connection_result; Nl] ;;
    ret 1%Z
  else
  system <- get_system ;;
  match system with
  | None => ret 1%Z
  | Some system =>
  plugin_new PAction system ;;
  plugin_new POffboard system ;;
  plugin_new PTelemetry system ;;
  print cout [Txt "System is ready"; Nl] ;;
  arm_result <- action Action.Arm ;;
  if negb (Action.is_success arm_result) then
    print cerr [Txt "Arming failed: "; ShowAction arm_result; Nl] ;;
    ret 1%Z
  else
  print cout [Txt "Armed"; Nl] ;;
  takeoff_result <- action Action.Takeoff ;;
  if negb (Action.is_success takeoff_result) then
    print cerr [Txt "Takeoff failed: "; ShowAction takeoff_result; Nl] ;;
    ret 1%Z
  else
  sleep_for (seconds 8) ;;
  ok <- offb_ctrl_ned ;;
  if negb ok then ret 1%Z else
  land_result <- action Action.Land ;;
  if negb (Action.is_success land_result) then
    print cerr [Txt "Landing failed: "; ShowAction land_result; Nl] ;;
    ret 1%Z
  else
  Shared.landing_wait fuel ;;
  print cout [Txt "Landed!"; Nl] ;;
  sleep_for (seconds 3) ;;
  print cout [Txt "Finished..."; Nl] ;;
  ret 0%Z
  end.
End Program.
End OffboardPositionControl.

(* ================================================================== *)
(** * offboard_velocity.cpp *)
(* ================================================================== *)

Module OffboardVelocity.
Section Program.
Context {F : Float32}.

Definition ESC : string := String (ascii_of_nat 27) EmptyString.
Definition ERROR_CONSOLE_TEXT : string := ESC ++ "[31m".
Definition NORMAL_CONSOLE_TEXT : string := ESC ++ "[0m".

(** Handles Action's result (lines 32-38). *)
Definition action_error_exit (result : Action.Result) (message : string)
  : M unit :=
  if negb (Action.is_success result) then
    print cerr [Txt ERROR_CONSOLE_TEXT; Txt message; ShowAction result;
                Txt NORMAL_CONSOLE_TEXT; Endl] ;;
    exit EXIT_FAILURE
  else ret tt.

(** Handles Offboard's result (lines 41-47). *)
Definition offboard_error_exit (result : Offboard.Result) (message : string)
  : M unit :=
  if negb (Offboard.is_success result) then
    print cerr [Txt ERROR_CONSOLE_TEXT; Txt message; ShowOffboard result;
                Txt NORMAL_CONSOLE_TEXT; Endl] ;;
    exit EXIT_FAILURE
  else ret tt.

(** Handles connection result (lines 50-56). *)
Definition connection_error_exit (result : ConnectionResult.t)
    (message : string) : M unit :=
  if negb (ConnectionResult.is_success result) then
    print cerr [Txt ERROR_CONSOLE_TEXT; Txt message; ShowConnection result;
                Txt NORMAL_CONSOLE_TEXT; Endl] ;;
    exit EXIT_FAILURE
  else ret tt.

(** Logs during Offboard control (lines 59-62). *)
Definition offboard_log (offb_mode msg : string) : M unit :=
  print cout [Txt "["; Txt offb_mode; Txt "] "; Txt msg; Endl].

(** Does Offboard control using attitude commands (lines 70-153).
    "returns true if everything went well in Offboard control, exits
    with a log otherwise."  The call of [offboard.stop()] is commented
    out. *)
Definition offb_ctrl_attitude : M bool :=
  let offb_mode := "ATTITUDE" in
  let roll := Offboard.Attitude0 in
  let thrust_value := Offboard.Attitude0 in
  let roll := Offboard.set_roll_deg roll (lit 30) in
  let roll := Offboard.set_thrust_value roll (lit (6 # 10)) in
  set_attitude roll ;;
  offboard_result <- offboard_start ;;
  offboard_error_exit offboard_result "Offboard start failed" ;;
  offboard_log offb_mode "Offboard started" ;;
  sleep_for (milliseconds 1000) ;;
  offboard_log offb_mode "Thrust 0.1" ;;
  let thrust_value := Offboard.set_thrust_value thrust_value (lit (1 # 10)) in
  set_attitude thrust_value ;;
  sleep_for (seconds 2) ;;
  (* [Offboard::Attitude attitude;] has no initialiser; each of its
     members is assigned before it is sent. *)
  let attitude :=
    {| Offboard.roll_deg := lit (3 # 10); Offboard.pitch_deg := lit 0;
       Offboard.yaw_deg := lit 0; Offboard.thrust_value := lit (3 # 10) |} in
  set_attitude attitude ;;
  sleep_for (seconds 5) ;;
  offboard_log offb_mode "Thrust 0.5" ;;
  let thrust_value := Offboard.set_thrust_value thrust_value (lit (5 # 10)) in
  set_attitude thrust_value ;;
  sleep_for (seconds 5) ;;
  offboard_log offb_mode "ROLL 30" ;;
  set_attitude roll ;;
  sleep_for (seconds 5) ;;
  offboard_log offb_mode "ROLL -30" ;;
  let roll := Offboard.set_roll_deg roll (lit (-30)) in
  set_attitude roll ;;
  sleep_for (seconds 5) ;;
  offboard_log offb_mode "ROLL 0" ;;
  let roll := Offboard.set_roll_deg roll (lit 0) in
  set_attitude roll ;;
  sleep_for (seconds 2) ;;
  set_velocity_body
    {| Offboard.forward_m_s := lit 0; Offboard.right_m_s := lit 0;
       Offboard.vb_down_m_s := lit 0; Offboard.yawspeed_deg_s := lit 0 |} ;;
  sleep_for (seconds 2) ;;
  ret true.

(** Lines 155-171.  [discover_future.wait()] has no timeout: without a
    connected system the program blocks for ever.  The function returns
    nothing in the source; the model hands over the system found, which
    [main] fetches again with [mavsdk.systems().at(0)]. *)
Definition wait_until_discover : M System :=
  print cout [Txt "Waiting to discover system..."; Endl] ;;
  emit SubscribeOnNewSystem ;;
  found <- call new_system (WaitNewSystem None) ;;
  match found with
  | None => hang
  | Some system =>
      print cout [Txt "Discovered system"; Endl] ;;
      ret system
  end.

Definition usage_text (bin_name : string) : list Item :=
  [ Txt NORMAL_CONSOLE_TEXT; Txt "Usage : "; Txt bin_name;
    Txt " <connection_url>"; Endl;
    Txt "Connection URL format should be :"; Endl;
    Txt " For TCP : tcp://[server_host][:server_port]"; Endl;
    Txt " For UDP : udp://[bind_host][:bind_port]"; Endl;
    Txt " For Serial : serial:///path/to/serial/dev[:baudrate]"; Endl;
    Txt "For example, to connect to the simulator use URL: udp://:14540";
    Endl ].

Definition usage (bin_name : string) : M unit :=
  print cout (usage_text bin_name).

(** The covariance entries of line 226. *)
Definition v : list Z :=
  [1; 0; 1; 0; 0; 1; 0; 0; 0; 1; 0; 0; 0; 0; 1; 0; 0; 0; 0; 0; 1]%Z.

(** The message of lines 214-229; [covariance] is the matrix of the
    default-constructed message, to whose end [v] is appended. *)
Definition mocap_msg (covariance : list float) : Mocap.AttitudePositionMocap :=
  {| Mocap.apm_time_usec := 0%N;
     Mocap.q := {| Mocap.w := lit 1; Mocap.x := lit 0; Mocap.y := lit 0;
                   Mocap.z := lit 0 |};
     Mocap.apm_position_body :=
       {| Mocap.x_m := lit 0; Mocap.y_m := lit 0; Mocap.z_m := lit 0 |};
     Mocap.apm_covariance_matrix :=
       covariance ++ map (fun n => lit (inject_Z n)) v |}.

(** Lines 183-259.  [Mavsdk mavsdk;] is declared before [argc] is
    looked at. *)
Definition main (bin_name : string) (args : list string) : M Z :=
  let argc := S (List.length args) in
  emit MavsdkNew ;;
  connection_result <-
    (if argc =? 2 then
       r <- add_any_connection (nth 0 args "") ;; ret (Some r)
     else
       usage bin_name ;; ret None) ;;
  match connection_result with
  | None => ret 1%Z
  | Some connection_result =>
  if negb (ConnectionResult.is_success connection_result) then
    print cout [Txt ERROR_CONSOLE_TEXT; Txt "Connection failed: ";
                ShowConnection connection_result;
                Txt NORMAL_CONSOLE_TEXT; Endl] ;;
    ret 1%Z
  else
  system <- wait_until_discover ;;
  plugin_new PAction system ;;
  plugin_new POffboard system ;;
  plugin_new PTelemetry system ;;
  plugin_new PMocap system ;;
  let covariance_matrix : list float := [] in
  print cout [Txt "Size:"; ShowSize (List.length covariance_matrix)] ;;
  result <- call mocap_result
              (MocapAttitudePosition (mocap_msg covariance_matrix)) ;;
  print cout [Txt "Mocap Status: "; ShowMocap result; Endl] ;;
  print cout [Txt "System is ready"; Endl] ;;
  print cout [ShowDefault "Mocap::AngularVelocityBody"] ;;
  print cout [ShowDefault "Mocap::SpeedBody"] ;;
  print cout [Txt "Arming..."; Endl] ;;
  arm_result <- action Action.Arm ;;
  if negb (Action.is_success arm_result) then
    print cout [Txt ERROR_CONSOLE_TEXT; Txt "Arming failed:";
                ShowAction arm_result; Txt NORMAL_CONSOLE_TEXT; Endl] ;;
    ret 1%Z
  else
  ok <- offb_ctrl_attitude ;;
  if Bool.eqb ok false then ret EXIT_FAILURE else
  print cout [Txt "Killing Motors"] ;;
  _ <- action Action.Kill ;;
  sleep_for (milliseconds 1000) ;;
  ret EXIT_SUCCESS
  end.
End Program.
End OffboardVelocity.

(* ================================================================== *)
(** * Running the programs *)
(* ================================================================== *)

(** An executable implementation of [Float32] over the rationals, with
    [None] for NaN.  It serves to run the programs on concrete inputs; it
    is not IEEE binary32 ([sinf] is the cubic Taylor polynomial) and no
    theorem below depends on it. *)
Module QFloat.
Definition lift2 (f : Q -> Q -> Q) (a b : option Q) : option Q :=
  match a, b with
  | Some x, Some y => Some (Qred (f x y))
  | _, _ => None
  end.

Definition sin3 (a : option Q) : option Q :=
  match a with
  | Some x => Some (Qred (x - x * x * x / 6))
  | None => None
  end.

Definition truncate (a : option Q) : N :=
  match a with
  | Some x => Z.to_N (Qfloor x)
  | None => 0%N
  end.

Definition impl : Float32 :=
  {| float := option Q;
     lit := fun q => Some q;
     M_PI_f := Some (13176795 # 4194304);
     NAN := None;
     fmul := lift2 Qmult;
     fdiv := lift2 Qdiv;
     sinf := sin3;
     float_of_unsigned := fun n => Some (inject_Z (Z.of_N n));
     unsigned_of_float := truncate |}.
End QFloat.

Section Environments.
Context {F : Float32}.

(** Everything succeeds, system [1] is found, the vehicle is in the air
    after take-off and reports having landed at once. *)
Definition all_good : Responses :=
  {| connection_result := ConnectionResult.Success;
     new_system := Some 1;
     action_result := Action.Success;
     offboard_result := Offboard.Success;
     mocap_result := Mocap.Success;
     in_air := false;
     in_air_ready := true |}.

Definition env_ok : Env := fun _ => all_good.

(** As [env_ok], but the offboard plugin refuses every command. *)
Definition env_offboard_refused : Env := fun _ =>
  {| connection_result := ConnectionResult.Success;
     new_system := Some 1;
     action_result := Action.Success;
     offboard_result := Offboard.Error 5;
     mocap_result := Mocap.Success;
     in_air := false;
     in_air_ready := true |}.

(** As [env_ok], but every mocap or vision message is refused. *)
Definition env_mocap_refused : Env := fun _ =>
  {| connection_result := ConnectionResult.Success;
     new_system := Some 1;
     action_result := Action.Success;
     offboard_result := Offboard.Success;
     mocap_result := Mocap.Error 3;
     in_air := false;
     in_air_ready := true |}.

(** As [env_ok], but no autopilot shows up. *)
Definition env_no_autopilot : Env := fun _ =>
  {| connection_result := ConnectionResult.Success;
     new_system := None;
     action_result := Action.Success;
     offboard_result := Offboard.Success;
     mocap_result := Mocap.Success;
     in_air := false;
     in_air_ready := true |}.

End Environments.

Definition url : string := "udp://:14540".

(** As [env_ok], but the vehicle is reported in the air until [landed]
    events have happened. *)
Definition env_lands_at {F : Float32} (landed : nat) : Env := fun i =>
  {| connection_result := ConnectionResult.Success;
     new_system := Some 1;
     action_result := Action.Success;
     offboard_result := Offboard.Success;
     mocap_result := Mocap.Success;
     in_air := i <? landed;
     in_air_ready := true |}.

(** What every program with [get_system] has done in [env_ok] when the
    autopilot is found. *)
Definition discovered_prefix : Trace (F := QFloat.impl) :=
  [ MavsdkNew;
    AddAnyConnection url ConnectionResult.Success;
    Print cout [Txt "Waiting to discover system..."; Nl];
    SubscribeOnNewSystem;
    WaitNewSystem (Some 3%Z) (Some 1);
    Print cout [Txt "Discovered autopilot"; Nl];
    UnsubscribeOnNewSystem ].


(** The three plugins of the flying programs. *)
Definition plugins_prefix : Trace (F := QFloat.impl) :=
  discovered_prefix ++
  [ PluginNew PAction 1; PluginNew POffboard 1; PluginNew PTelemetry 1;
    Print cout [Txt "System is ready"; Nl] ].

(* ================================================================== *)
(** * Properties of traces *)
(* ================================================================== *)

Section TraceProperties.
Context {F : Float32}.

(** ** What the loops emit *)

(** The velocity loop of [offb_ctrl_ned]. *)
Definition ned_loop_event (e : Event) : Prop :=
  match e with
  | OffboardSet (Offboard.SetVelocityNed _) | Sleep _ => True
  | _ => False
  end.

(** The telemetry polling loops. *)
Definition poll_event (e : Event) : Prop :=
  match e with
  | TelemetryGet _ | TelemetryInAir _ | Print _ _ | Sleep _ => True
  | _ => False
  end.

(** The loop that sends vision estimates. *)
Definition vision_loop_event (e : Event) : Prop :=
  match e with
  | MocapVisionPosition _ _ | Print _ _ | Sleep _ => True
  | _ => False
  end.

(** ** Kinds of events *)

Definition is_print (e : Event) : bool :=
  match e with Print _ _ => true | _ => false end.

Definition is_setpoint (e : Event) : bool :=
  match e with OffboardSet _ => true | _ => false end.

(** The setpoints sent with [set_attitude], [set_velocity_ned] or
    [set_velocity_body]. *)
Definition is_priming (e : Event) : bool :=
  match e with
  | OffboardSet (Offboard.SetAttitude _)
  | OffboardSet (Offboard.SetVelocityNed _)
  | OffboardSet (Offboard.SetVelocityBody _) => true
  | _ => false
  end.

Definition is_start (e : Event) : bool :=
  match e with OffboardStart _ => true | _ => false end.

Definition is_stop (e : Event) : bool :=
  match e with OffboardStop _ => true | _ => false end.






(** An offboard start or stop that the vehicle did not accept. *)
Definition offboard_failure (e : Event) : bool :=
  match e with
  | OffboardStart r | OffboardStop r => negb (Offboard.is_success r)
  | _ => false
  end.


(** A failure among the results the programs test: the connection, the
    discovery with a timeout, arming, take-off and landing, the start
    and stop of offboard mode, and the second, three second wait for
    the vehicle to be in the air.  Not among them: the result of
    [action.kill()], the results of the mocap and vision messages, the
    first wait for the vehicle to be in the air. *)
Definition checked_failure (e : Event) : bool :=
  match e with
  | AddAnyConnection _ r => negb (ConnectionResult.is_success r)
  | WaitNewSystem (Some _) None => true
  | ActionCall c r =>
      match c with
      | Action.Kill => false
      | _ => negb (Action.is_success r)
      end
  | OffboardStart r | OffboardStop r => negb (Offboard.is_success r)
  | WaitInAir t ready => (t =? 3)%Z && negb ready
  | _ => false
  end.

(** ** Checks that run over a trace *)

(** Every event that passes [Q] comes after an event that passes [P],
    or [seen] holds. *)
Fixpoint preceded (P Q : Event -> bool) (seen : bool) (tr : Trace) : bool :=
  match tr with
  | [] => true
  | e :: rest => (negb (Q e) || seen) && preceded P Q (seen || P e) rest
  end.

(** Read from left to right: is the last one of the setpoints and
    markers seen so far a marker? *)
Fixpoint marker_after_last (is_marker : Event -> bool) (seen : bool)
    (tr : Trace) : bool :=
  match tr with
  | [] => seen
  | e :: rest =>
      marker_after_last is_marker
        (if is_marker e then true
         else if is_setpoint e then false else seen)
        rest
  end.

(** [Some false]: no checked failure in the trace.  [Some true]: there
    is one and only output follows the first.  [None]: something else
    follows the first. *)
Fixpoint first_failure_aborts (tr : Trace) : option bool :=
  match tr with
  | [] => Some false
  | e :: rest =>
      if checked_failure e then
        if forallb is_print rest then Some true else None
      else first_failure_aborts rest
  end.

(** A status other than success: both [return 1] and
    [exit(EXIT_FAILURE)] hand 1 to the caller of the process. *)
Definition is_failure_status (o : Outcome Z) : bool :=
  match o with
  | Returned c | Exited c => (c =? 1)%Z
  | _ => false
  end.

Definition run_verdict (r : Outcome Z * Trace) : bool :=
  match first_failure_aborts (trace r) with
  | Some true => is_failure_status (outcome r)
  | Some false => true
  | None => false
  end.



(** C8 as it is stated: [main] returns 1 and the run is the print of
    the usage text, on either stream, and nothing else. *)
Definition only_prints_usage (usage_text : list Item)
    (r : Outcome Z * Trace) : Prop :=
  outcome r = Returned 1%Z /\
  exists s, trace r = [Print s usage_text].

(** ** What the claims say of a run *)

(** A marker event follows the last setpoint. *)
Definition after_last_setpoint (is_marker : Event -> bool) (tr : Trace)
  : Prop :=
  exists pre m post,
    tr = pre ++ m :: post /\ is_marker m = true /\
    forall e, In e post -> is_setpoint e = false.

(** C2: offboard mode is stopped once the last setpoint is out, on
    every run that returns [true]. *)
Definition stops_when_done (r : Outcome bool * Trace) : Prop :=
  outcome r = Returned true -> after_last_setpoint is_stop (trace r).

(** C2: [offboard.stop()] is never called, and the function returns
    [true] whenever its start was accepted. *)
Definition never_stops (r : Outcome bool * Trace) : Prop :=
  (forall res, ~ In (OffboardStop res) (trace r)) /\
  (In (OffboardStart Offboard.Success) (trace r) ->
   outcome r = Returned true).

(** C3: the run calls [offboard.start()], and whenever it does a priming
    setpoint has been sent before. *)
Definition starts_primed (r : Outcome bool * Trace) : Prop :=
  (exists res, In (OffboardStart res) (trace r)) /\
  (forall pre res post,
     trace r = pre ++ OffboardStart res :: post ->
     exists e, In e pre /\ is_priming e = true).












(** C6: a control function hands a refused start or stop to its
    caller: it always returns, and returns [false] when the vehicle
    refused. *)
Definition surfaces_failure (r : Outcome bool * Trace) : Prop :=
  (exists b, outcome r = Returned b) /\
  (forall e, In e (trace r) -> offboard_failure e = true ->
     outcome r = Returned false).

(** C7: a tested result that is a failure ends the process with status
    1, and nothing but output follows it: no call is made again. *)
Definition failure_is_final (r : Outcome Z * Trace) : Prop :=
  forall pre e post,
    trace r = pre ++ e :: post -> checked_failure e = true ->
    (outcome r = Returned 1%Z \/ outcome r = Exited EXIT_FAILURE) /\
    (forall e', In e' post -> is_print e' = true).

(** C9: when the wait for an autopilot times out, [main] returns 1 and
    makes no plugin; and a plugin is only ever made from a system the
    wait has delivered. *)
Definition no_autopilot_is_handled (r : Outcome Z * Trace) : Prop :=
  (In (WaitNewSystem (Some 3%Z) None) (trace r) ->
     outcome r = Returned 1%Z /\
     forall p s, ~ In (PluginNew p s) (trace r)) /\
  (forall p s, In (PluginNew p s) (trace r) ->
     In (WaitNewSystem (Some 3%Z) (Some s)) (trace r)).
End TraceProperties.

(* ================================================================== *)
(** * Further properties of traces *)
(* ================================================================== *)

Section MoreTraceProperties.
Context {F : Float32}.

(** ** The landing wait *)

(** One round of the wait while the vehicle is in the air. *)
Definition landing_round : Trace :=
  [ TelemetryInAir true;
    Print cout [Txt "Vehicle is landing..."; Nl];
    Sleep (seconds 1) ].

Definition landing_rounds (k : nat) : Trace :=
  List.concat (List.repeat landing_round k).

(** ** The velocity loop of [offb_ctrl_ned] *)

(** What iteration [i] of the loop sends. *)
Definition north_and_back_south (i : nat) : Offboard.VelocityNedYaw :=
  {| Offboard.north_m_s :=
       fmul (lit 5)
         (sinf (fmul (float_of_unsigned (N.of_nat i))
                  OffboardVelocityWorking.step_size));
     Offboard.east_m_s := lit 0;
     Offboard.down_m_s := lit 0;
     Offboard.vn_yaw_deg := lit 90 |}.

Definition north_and_back_south_events (i : nat) : Trace :=
  [ OffboardSet (Offboard.SetVelocityNed (north_and_back_south i));
    Sleep (milliseconds 10) ].

(** ** Environments *)

(** Every command is accepted, an autopilot is found, the vehicle gets
    into the air.  The results of the mocap and vision messages are
    left open. *)
Definition accepting (env : Env) : Prop :=
  forall i,
    connection_result (env i) = ConnectionResult.Success /\
    new_system (env i) <> None /\
    action_result (env i) = Action.Success /\
    offboard_result (env i) = Offboard.Success /\
    in_air_ready (env i) = true.

(** From [bound] events on the vehicle is reported on the ground. *)
Definition lands_by (bound : nat) (env : Env) : Prop :=
  forall i, bound <= i -> in_air (env i) = false.

(** As [env_ok], but the vehicle never reports having landed. *)
Definition env_stays_in_air : Env := fun _ =>
  {| connection_result := ConnectionResult.Success;
     new_system := Some 1;
     action_result := Action.Success;
     offboard_result := Offboard.Success;
     mocap_result := Mocap.Success;
     in_air := true;
     in_air_ready := true |}.

(** As [env_ok], but the vehicle does not get into the air. *)
Definition env_stays_on_ground : Env := fun _ =>
  {| connection_result := ConnectionResult.Success;
     new_system := Some 1;
     action_result := Action.Success;
     offboard_result := Offboard.Success;
     mocap_result := Mocap.Success;
     in_air := false;
     in_air_ready := false |}.

(** ** Kinds of events *)

Definition is_start_ok (e : Event) : bool :=
  match e with OffboardStart Offboard.Success => true | _ => false end.

Definition is_stop_ok (e : Event) : bool :=
  match e with OffboardStop Offboard.Success => true | _ => false end.

Definition is_land_or_kill (e : Event) : bool :=
  match e with
  | ActionCall Action.Land _ | ActionCall Action.Kill _ => true
  | _ => false
  end.

Definition is_arm_call (e : Event) : bool :=
  match e with ActionCall Action.Arm _ => true | _ => false end.

Definition is_offboard (e : Event) : bool :=
  match e with
  | OffboardSet _ | OffboardStart _ | OffboardStop _ => true
  | _ => false
  end.

Definition is_takeoff_ok (e : Event) : bool :=
  match e with
  | ActionCall Action.Takeoff Action.Success => true
  | _ => false
  end.

(** The second wait for the vehicle to be in the air found it there. *)
Definition is_in_air_confirmed (e : Event) : bool :=
  match e with
  | WaitInAir t true => (t =? 3)%Z
  | _ => false
  end.

Definition is_telemetry_get (e : Event) : bool :=
  match e with TelemetryGet _ => true | _ => false end.

Definition is_in_air_poll (e : Event) : bool :=
  match e with TelemetryInAir _ => true | _ => false end.

Definition prints_not_ok (e : Event) : bool :=
  match e with
  | Print _ items =>
      existsb (fun it => match it with
                         | Txt s => String.eqb s "not ok"
                         | _ => false
                         end) items
  | _ => false
  end.

(** The number of checks of a health sample that failed. *)
Definition failed_checks (h : Telemetry.Health) : nat :=
  List.length
    (filter negb
       [ Telemetry.is_gyrometer_calibration_ok h;
         Telemetry.is_accelerometer_calibration_ok h;
         Telemetry.is_magnetometer_calibration_ok h;
         Telemetry.is_local_position_ok h;
         Telemetry.is_global_position_ok h;
         Telemetry.is_home_position_ok h ]).

(** Anything but a message on [cerr]. *)
Definition off_cerr (e : Event) : Prop :=
  match e with
  | Print cerr _ => False
  | _ => True
  end.

(** ** Checks that run over a trace *)

(** Only output follows the first event that passes [p]. *)
Fixpoint quiet_after_first (p : Event -> bool) (tr : Trace) : bool :=
  match tr with
  | [] => true
  | e :: rest =>
      if p e then forallb is_print rest else quiet_after_first p rest
  end.

(** ** What is said of a run *)

(** Only output follows any event that passes [p]. *)
Definition quiet_after (p : Event -> bool) (tr : Trace) : Prop :=
  forall pre e post,
    tr = pre ++ e :: post -> p e = true ->
    forall e', In e' post -> is_print e' = true.

(** An offboard session as a control function runs it: one start, at
    most one stop, only output after the stop and after a start or stop
    that was refused. *)
Definition one_session (r : Outcome bool * Trace) : Prop :=
  List.length (filter is_start (trace r)) = 1 /\
  List.length (filter is_stop (trace r)) <= 1 /\
  quiet_after is_stop (trace r) /\
  quiet_after offboard_failure (trace r).

(** Nothing but a refused start or stop keeps a control function from
    returning [true]. *)
Definition fails_on_refusal_only (r : Outcome bool * Trace) : Prop :=
  outcome r <> Returned true ->
  exists e, In e (trace r) /\ offboard_failure e = true.

(** The setpoints of a trace. *)
Definition setpoints (tr : Trace) : list Offboard.Setpoint :=
  flat_map (fun e => match e with OffboardSet sp => [sp] | _ => [] end) tr.

(** Events that pass [Q] only come after an event that passes [P]. *)
Definition only_after (P Q : Event -> bool) (r : Outcome Z * Trace) : Prop :=
  forall pre e post,
    trace r = pre ++ e :: post -> Q e = true ->
    exists a, In a pre /\ P a = true.

(** The discovery of offboard_velocity.cpp waits without a timeout:
    the run hangs exactly when no system shows up, and then it has made
    no plugin. *)
Definition waits_for_ever (r : Outcome Z * Trace) : Prop :=
  (forall t found, In (WaitNewSystem t found) (trace r) -> t = None) /\
  (outcome r = Hangs <-> In (WaitNewSystem None None) (trace r)) /\
  (outcome r = Hangs -> forall p s, ~ In (PluginNew p s) (trace r)).

(** The run never gets out of the landing wait: [action.land()] was
    accepted, the rounds of the wait follow it and end the run; neither
    "Landed!" nor "Finished..." is printed. *)
Definition stuck_in_landing_wait (fuel : nat) (r : Outcome Z * Trace)
  : Prop :=
  outcome r = OutOfFuel /\
  (exists pre,
     trace r
     = pre ++ ActionCall Action.Land Action.Success :: landing_rounds fuel) /\
  ~ In (Print cout [Txt "Landed!"; Nl]) (trace r) /\
  ~ In (Print cout [Txt "Finished..."; Nl]) (trace r).

(** A message on [cerr] is written exactly on the runs that return 1. *)
Definition complains_iff_fails (r : Outcome Z * Trace) : Prop :=
  outcome r = Returned 1%Z <->
  exists items, In (Print cerr items) (trace r).

(** The telemetry plugin made, the polling loop runs to its end. *)
Definition reads_ten_rounds (r : Outcome Z * Trace) : Prop :=
  forall s,
    In (PluginNew PTelemetry s) (trace r) ->
    outcome r = Returned 0%Z /\
    List.length (filter is_telemetry_get (trace r)) = 130 /\
    List.length (filter is_in_air_poll (trace r)) = 10.

(** Once offboard mode is on, "Fly a circle sideways" is followed by a
    setpoint that still has the forward speed of "Fly a circle". *)
Definition sideways_circle_keeps_forward (r : Outcome bool * Trace)
  : Prop :=
  In (OffboardStart Offboard.Success) (trace r) ->
  exists pre circle post,
    trace r =
      pre ++
      [ Print cout [Txt "Fly a circle sideways"; Nl];
        OffboardSet (Offboard.SetVelocityBody circle);
        Sleep (seconds 15) ] ++ post /\
    Offboard.forward_m_s circle = lit 5 /\
    Offboard.right_m_s circle = lit (-5) /\
    Offboard.vb_down_m_s circle = lit 0 /\
    Offboard.yawspeed_deg_s circle = lit 30.

(** A position setpoint at two metres above the origin plane, heading
    north. *)
Definition holds_altitude (sp : Offboard.Setpoint) : Prop :=
  match sp with
  | Offboard.SetPositionNed p =>
      Offboard.down_m p = lit (-2) /\ Offboard.pn_yaw_deg p = lit 0
  | _ => False
  end.

(** The run that returns [true] primes with a zero velocity, then flies
    position setpoints at one altitude, the last of which is the
    first. *)
Definition flies_closed_path (r : Outcome bool * Trace) : Prop :=
  outcome r = Returned true ->
  exists origin legs,
    setpoints (trace r)
    = Offboard.SetVelocityNed Offboard.VelocityNedYaw0
      :: Offboard.SetPositionNed origin
      :: legs ++ [Offboard.SetPositionNed origin] /\
    holds_altitude (Offboard.SetPositionNed origin) /\
    Forall holds_altitude legs.

(** The callback of the discovery is removed exactly on the runs on
    which an autopilot was found in time. *)
Definition unsubscribes_on_discovery (r : Outcome Z * Trace) : Prop :=
  In UnsubscribeOnNewSystem (trace r) <->
  exists s, In (WaitNewSystem (Some 3%Z) (Some s)) (trace r).

Definition is_mocap_send (e : Event) : bool :=
  match e with MocapAttitudePosition _ _ => true | _ => false end.

(** The mocap message of offboard_velocity.cpp goes out once, with the
    21 covariance entries appended after the size, 0, was printed. *)
Definition sends_one_mocap_message (r : Outcome Z * Trace) : Prop :=
  forall m res,
    In (MocapAttitudePosition m res) (trace r) ->
    List.length (Mocap.apm_covariance_matrix m) = 21 /\
    In (Print cout [Txt "Size:"; ShowSize 0]) (trace r) /\
    List.length (filter is_mocap_send (trace r)) = 1 /\
    only_after is_mocap_send is_arm_call r.

Definition is_landed_unsubscribe (e : Event) : bool :=
  match e with TelemetryUnsubscribe SLandedState => true | _ => false end.

(** Of the two waits for the vehicle to be in the air, the second one
    decides: it is made whatever the first one gave, the run gives up
    exactly when it times out, and has not touched the offboard plugin
    then.  The callback removes itself at most once. *)
Definition second_wait_decides (r : Outcome Z * Trace) : Prop :=
  (forall ready,
     In (WaitInAir 10 ready) (trace r) ->
     exists ready', In (WaitInAir 3 ready') (trace r)) /\
  (In (WaitInAir 3 false) (trace r) <->
   In (Print cerr [Txt "Takeoff timed out."; Nl]) (trace r)) /\
  (In (WaitInAir 3 false) (trace r) ->
   outcome r = Returned 1%Z /\
   forall e, In e (trace r) -> is_offboard e = true -> False) /\
  List.length (filter is_landed_unsubscribe (trace r)) <= 1.
End MoreTraceProperties.

(* ================================================================== *)
(** * Reasoning about runs *)
(* ================================================================== *)

Section Runs.
Context {F : Float32}.

Lemma bind_unfold {A B} (m : M A) (k : A -> M B) env n :
  bind m k env n =
  match m env n with
  | (Returned a, t1) =>
      (outcome (k a env (n + List.length t1)),
       t1 ++ trace (k a env (n + List.length t1)))
  | (Exited c, t1) => (Exited c, t1)
  | (Hangs, t1) => (Hangs, t1)
  | (OutOfFuel, t1) => (OutOfFuel, t1)
  end.
Proof.
  unfold bind, outcome, trace.
  destruct (m env n) as [[a | c | | ] t1]; try reflexivity.
  destruct (k a env (n + List.length t1)); reflexivity.
Qed.

(** A loop whose body always comes back comes back, and its events are
    those of its body. *)
Lemma for_loop_returns (body : nat -> M unit) :
  (forall i env n, outcome (body i env n) = Returned tt) ->
  forall count from env n,
    outcome (for_loop from count body env n) = Returned tt.
Proof.
  intros Hbody. induction count as [| c IH]; intros from env n.
  - reflexivity.
  - cbn [for_loop]. rewrite bind_unfold.
    specialize (Hbody from env n).
    destruct (body from env n) as [o t1]. cbn in Hbody. subst o.
    cbn. apply IH.
Qed.

Lemma for_loop_Forall (P : Event -> Prop) (body : nat -> M unit) :
  (forall i env n, Forall P (trace (body i env n))) ->
  forall count from env n,
    Forall P (trace (for_loop from count body env n)).
Proof.
  intros Hbody. induction count as [| c IH]; intros from env n.
  - constructor.
  - cbn [for_loop]. rewrite bind_unfold.
    specialize (Hbody from env n).
    destruct (body from env n) as [[[] | ? | | ] t1]; cbn in *; auto.
    apply Forall_app. split; [assumption | apply IH].
Qed.

(** The events of a polling loop are those of its condition and body;
    it comes back or runs out of budget when condition and body always
    come back. *)
Lemma while_loop_Forall (P : Event -> Prop) (cond : M bool) (body : M unit) :
  (forall env n, Forall P (trace (cond env n))) ->
  (forall env n, Forall P (trace (body env n))) ->
  forall fuel env n, Forall P (trace (while_loop fuel cond body env n)).
Proof.
  intros Hc Hb. induction fuel as [| f IH]; intros env n.
  - constructor.
  - cbn [while_loop]. rewrite bind_unfold.
    specialize (Hc env n).
    destruct (cond env n) as [[b | ? | | ] t1]; cbn in *; auto.
    apply Forall_app. split; [assumption |].
    destruct b; [| constructor].
    rewrite bind_unfold.
    specialize (Hb env (n + List.length t1)).
    destruct (body env (n + List.length t1)) as [[[] | ? | | ] t2];
      cbn in *; auto.
    apply Forall_app. split; [assumption | apply IH].
Qed.

Lemma while_loop_outcome (cond : M bool) (body : M unit) :
  (forall env n, exists b, outcome (cond env n) = Returned b) ->
  (forall env n, outcome (body env n) = Returned tt) ->
  forall fuel env n,
    outcome (while_loop fuel cond body env n) = Returned tt \/
    outcome (while_loop fuel cond body env n) = OutOfFuel.
Proof.
  intros Hc Hb. induction fuel as [| f IH]; intros env n.
  - right. reflexivity.
  - cbn [while_loop]. rewrite bind_unfold.
    destruct (Hc env n) as [b Hcb].
    destruct (cond env n) as [o t1]. cbn in Hcb. subst o.
    destruct b; [| left; reflexivity].
    cbn. rewrite bind_unfold.
    specialize (Hb env (n + List.length t1)).
    destruct (body env (n + List.length t1)) as [o t2]. cbn in Hb. subst o.
    cbn. apply IH.
Qed.

(** With enough budget the polling loop of the two landing programs
    comes back: it does as soon as the vehicle is reported on the
    ground. *)
Lemma landing_wait_terminates :
  forall polls env n,
    in_air (env (n + 3 * polls)) = false ->
    forall fuel, polls < fuel ->
      outcome (Shared.landing_wait fuel env n) = Returned tt.
Proof.
  induction polls as [| p IH]; intros env n Hland fuel Hlt.
  - destruct fuel as [| f]; [lia |].
    replace (n + 3 * 0) with n in Hland by lia.
    unfold Shared.landing_wait. cbn. rewrite Hland. reflexivity.
  - destruct fuel as [| f]; [lia |].
    unfold Shared.landing_wait. cbn [while_loop]. rewrite bind_unfold.
    cbn. destruct (in_air (env n)); [| reflexivity].
    cbn.
    specialize (IH env (n + 1 + 2)).
    replace (n + 1 + 2 + 3 * p) with (n + 3 * S p) in IH by lia.
    specialize (IH Hland f ltac:(lia)).
    unfold Shared.landing_wait in IH.
    destruct (while_loop f telemetry_in_air _ env (n + 1 + 2)) as [o t].
    cbn in IH. subst o. reflexivity.
Qed.
End Runs.

(* ================================================================== *)
(** * The loops of the programs *)
(* ================================================================== *)

Section Loops.
Context {F : Float32}.

Lemma north_and_back_south_step_returns i env n :
  outcome (OffboardVelocityWorking.north_and_back_south_step i env n)
  = Returned tt.
Proof. reflexivity. Qed.

Lemma north_and_back_south_step_events i env n :
  Forall ned_loop_event
    (trace (OffboardVelocityWorking.north_and_back_south_step i env n)).
Proof. repeat constructor. Qed.

Lemma read_all_returns i env n :
  outcome (OffboardReadBlocking.read_all i env n) = Returned tt.
Proof. reflexivity. Qed.

Lemma read_all_events i env n :
  Forall poll_event (trace (OffboardReadBlocking.read_all i env n)).
Proof. repeat constructor. Qed.

Lemma send_position_returns i env n :
  outcome (OffboardVision.send_position i env n) = Returned tt.
Proof. reflexivity. Qed.

Lemma send_position_events i env n :
  Forall vision_loop_event (trace (OffboardVision.send_position i env n)).
Proof. repeat constructor. Qed.

Lemma landing_wait_events fuel env n :
  Forall poll_event (trace (Shared.landing_wait fuel env n)).
Proof.
  apply while_loop_Forall; intros; repeat constructor.
Qed.

Lemma landing_wait_outcome fuel env n :
  outcome (Shared.landing_wait fuel env n) = Returned tt \/
  outcome (Shared.landing_wait fuel env n) = OutOfFuel.
Proof.
  apply while_loop_outcome; intros.
  - eexists. reflexivity.
  - reflexivity.
Qed.

End Loops.

(* ================================================================== *)
(** * The checks are sound *)
(* ================================================================== *)

Section Checks.
Context {F : Float32}.

Lemma preceded_seen P Q tr : preceded P Q true tr = true.
Proof.
  induction tr as [| e tr IH]; cbn; [reflexivity |].
  rewrite orb_true_r. exact IH.
Qed.

Lemma preceded_sound P Q :
  forall pre seen e post,
    preceded P Q seen (pre ++ e :: post) = true ->
    Q e = true ->
    seen = true \/ exists e', In e' pre /\ P e' = true.
Proof.
  induction pre as [| a pre IH]; intros seen e post Hc HQ.
  - cbn in Hc. rewrite HQ in Hc. cbn in Hc.
    apply andb_prop in Hc. left. tauto.
  - cbn in Hc. apply andb_prop in Hc. destruct Hc as [_ Hc].
    eapply IH in Hc; [| exact HQ].
    destruct Hc as [Hs | (e' & Hin & HP)].
    + apply orb_prop in Hs. destruct Hs as [Hs | Hs]; [tauto |].
      right. exists a. split; [left; reflexivity | exact Hs].
    + right. exists e'. split; [right; exact Hin | exact HP].
Qed.

Lemma preceded_correct P Q tr :
  preceded P Q false tr = true ->
  forall pre e post,
    tr = pre ++ e :: post -> Q e = true ->
    exists e', In e' pre /\ P e' = true.
Proof.
  intros Hc pre e post -> HQ.
  eapply preceded_sound in Hc; [| exact HQ].
  destruct Hc as [? | ?]; [discriminate | assumption].
Qed.

Lemma starts_primed_check (r : Outcome bool * Trace) :
  existsb is_start (trace r) = true ->
  preceded is_priming is_start false (trace r) = true ->
  starts_primed r.
Proof.
  intros Hex Hc. split.
  - apply existsb_exists in Hex. destruct Hex as (e & Hin & He).
    destruct e; try discriminate He. eexists. exact Hin.
  - intros pre res post Heq.
    eapply preceded_correct; [exact Hc | exact Heq | reflexivity].
Qed.

Lemma marker_after_last_app is_marker :
  forall l1 l2 seen,
    marker_after_last is_marker seen (l1 ++ l2)
    = marker_after_last is_marker (marker_after_last is_marker seen l1) l2.
Proof.
  induction l1 as [| e l1 IH]; intros l2 seen; [reflexivity |].
  cbn. apply IH.
Qed.

Lemma marker_after_last_keep is_marker :
  forall tr,
    Forall (fun e => is_setpoint e = false) tr ->
    marker_after_last is_marker true tr = true.
Proof.
  induction tr as [| e tr IH]; intros Hq; [reflexivity |].
  inversion Hq as [| ? ? He Htr]; subst. cbn. rewrite He.
  destruct (is_marker e); apply IH; exact Htr.
Qed.

Lemma marker_after_last_sound is_marker :
  forall tr seen,
    marker_after_last is_marker seen tr = true ->
    (seen = true /\ forall e, In e tr -> is_setpoint e = false) \/
    after_last_setpoint is_marker tr.
Proof.
  assert (Hcons : forall a tr,
             after_last_setpoint is_marker tr ->
             after_last_setpoint is_marker (a :: tr)).
  { intros a tr (pre & m & post & -> & Hm & Hpost).
    exists (a :: pre), m, post. repeat split; assumption. }
  induction tr as [| a tr IH]; intros seen Hc.
  - left. split; [exact Hc | intros e []].
  - cbn in Hc. apply IH in Hc.
    destruct (is_marker a) eqn:Hm.
    + right. destruct Hc as [[_ Hno] | Hex].
      * exists [], a, tr. repeat split; assumption.
      * apply Hcons. exact Hex.
    + destruct (is_setpoint a) eqn:Hs.
      * right. destruct Hc as [[Hf _] | Hex];
          [discriminate | apply Hcons; exact Hex].
      * destruct Hc as [[Hseen Hno] | Hex].
        -- left. split; [exact Hseen |].
           intros e [<- | Hin]; [exact Hs | exact (Hno e Hin)].
        -- right. apply Hcons. exact Hex.
Qed.

Lemma marker_after_last_correct is_marker tr :
  marker_after_last is_marker false tr = true ->
  after_last_setpoint is_marker tr.
Proof.
  intros Hc. apply marker_after_last_sound in Hc.
  destruct Hc as [[? _] | ?]; [discriminate | assumption].
Qed.



Lemma print_not_checked e : is_print e = true -> checked_failure e = false.
Proof. destruct e; cbn; intros H; try discriminate H; reflexivity. Qed.

Lemma first_failure_aborts_skip :
  forall l rest,
    Forall (fun e => checked_failure e = false) l ->
    first_failure_aborts (l ++ rest) = first_failure_aborts rest.
Proof.
  induction l as [| e l IH]; intros rest Hq; [reflexivity |].
  inversion Hq as [| ? ? He Hl]; subst. cbn. rewrite He.
  apply IH. exact Hl.
Qed.

Lemma first_failure_aborts_quiet :
  forall l,
    Forall (fun e => checked_failure e = false) l ->
    first_failure_aborts l = Some false.
Proof.
  intros l Hq. rewrite <- (app_nil_r l).
  rewrite first_failure_aborts_skip by exact Hq. reflexivity.
Qed.

Lemma first_failure_aborts_sound :
  forall tr b,
    first_failure_aborts tr = Some b ->
    forall pre e post,
      tr = pre ++ e :: post -> checked_failure e = true ->
      b = true /\ forall e', In e' post -> is_print e' = true.
Proof.
  induction tr as [| a tr IH]; intros b Hc pre e post Heq He.
  - destruct pre; discriminate Heq.
  - cbn in Hc. destruct pre as [| a' pre]; cbn in Heq;
      injection Heq as <- ->.
    + rewrite He in Hc.
      destruct (forallb is_print post) eqn:Hp; [| discriminate Hc].
      injection Hc as <-. split; [reflexivity |].
      apply forallb_forall. exact Hp.
    + destruct (checked_failure a) eqn:Ha.
      * destruct (forallb is_print (pre ++ e :: post)) eqn:Hp;
          [| discriminate Hc].
        rewrite forallb_forall in Hp.
        specialize (Hp e (in_elt e pre post)).
        apply print_not_checked in Hp. congruence.
      * eapply IH; [exact Hc | reflexivity | exact He].
Qed.

Lemma run_verdict_sound (r : Outcome Z * Trace) :
  run_verdict r = true -> failure_is_final r.
Proof.
  unfold run_verdict, failure_is_final. intros Hv pre e post Heq He.
  destruct (first_failure_aborts (trace r)) as [b |] eqn:Hc;
    [| discriminate Hv].
  destruct (@first_failure_aborts_sound _ _ Hc _ _ _ Heq He) as [-> Hpost].
  split; [| exact Hpost].
  unfold is_failure_status in Hv.
  destruct (outcome r) as [c | c | |]; try discriminate Hv.
  - apply Z.eqb_eq in Hv. subst c. left. reflexivity.
  - apply Z.eqb_eq in Hv. subst c. right. reflexivity.
Qed.

(** The events of the loops are no checked failures and no setpoints
    where that matters. *)
Lemma ned_loop_quiet l :
  Forall ned_loop_event l -> Forall (fun e => checked_failure e = false) l.
Proof.
  apply Forall_impl. intros e He.
  destruct e; cbn in *; solve [reflexivity | contradiction].
Qed.

Lemma poll_quiet l :
  Forall poll_event l -> Forall (fun e => checked_failure e = false) l.
Proof.
  apply Forall_impl. intros e He.
  destruct e; cbn in *; solve [reflexivity | contradiction].
Qed.

Lemma vision_loop_quiet l :
  Forall vision_loop_event l ->
  Forall (fun e => checked_failure e = false) l.
Proof.
  apply Forall_impl. intros e He.
  destruct e; cbn in *; solve [reflexivity | contradiction].
Qed.

Lemma poll_no_setpoint l :
  Forall poll_event l -> Forall (fun e => is_setpoint e = false) l.
Proof.
  apply Forall_impl. intros e He.
  destruct e; cbn in *; solve [reflexivity | contradiction].
Qed.
End Checks.

#[local] Arguments for_loop : simpl never.
#[local] Arguments while_loop : simpl never.
#[local] Arguments OffboardVelocityWorking.steps : simpl never.

(** Symbolic execution: [branch] splits on the next answer of the
    environment a program looks at, the [sweep] tactics step over a loop
    keeping what is known of its events. *)
Ltac branch :=
  match goal with
  | |- context [Offboard.is_success ?r] => destruct r eqn:?
  | |- context [Action.is_success ?r] => destruct r eqn:?
  | |- context [ConnectionResult.is_success ?r] => destruct r eqn:?
  | |- context [new_system ?x] => destruct (new_system x) eqn:?
  | |- context [in_air_ready ?x] => destruct (in_air_ready x) eqn:?
  end.

Ltac sweep_for :=
  match goal with
  | |- context [for_loop ?a ?c ?body ?e ?i] =>
      let Hr := fresh "Hret" in
      let He := fresh "Hev" in
      let o := fresh "o" in
      let L := fresh "L" in
      let Hloop := fresh "Hloop" in
      first
        [ pose proof (@for_loop_returns _ body
                        north_and_back_south_step_returns c a e i) as Hr;
          pose proof (@for_loop_Forall _ _ body
                        north_and_back_south_step_events c a e i) as He
        | pose proof (@for_loop_returns _ body
                        read_all_returns c a e i) as Hr;
          pose proof (@for_loop_Forall _ _ body
                        read_all_events c a e i) as He
        | pose proof (@for_loop_returns _ body
                        send_position_returns c a e i) as Hr;
          pose proof (@for_loop_Forall _ _ body
                        send_position_events c a e i) as He ];
      destruct (for_loop a c body e i) as [o L] eqn:Hloop;
      cbn in Hr, He; subst o; try clear Hr
  end.

Ltac sweep_landing :=
  match goal with
  | |- context [while_loop ?f ?c ?b ?e ?i] =>
      let Ho := fresh "Hout" in
      let He := fresh "Hev" in
      let o := fresh "o" in
      let W := fresh "W" in
      pose proof (landing_wait_outcome f e i) as Ho;
      pose proof (landing_wait_events f e i) as He;
      change (Shared.landing_wait f e i) with (while_loop f c b e i) in Ho, He;
      destruct (while_loop f c b e i) as [o W];
      cbn in Ho, He; destruct Ho; subst o
  end.

Ltac sweep := first [sweep_for | sweep_landing].

Ltac expose :=
  cbv beta iota zeta delta
    [bind emit call ret exit hang out_of_fuel print sleep_for plugin_new
     add_any_connection action set_attitude set_velocity_ned
     set_velocity_body set_position_ned offboard_start offboard_stop
     telemetry_in_air].

Ltac exec := expose; cbn; repeat (first [branch | sweep]; cbn).

(** The definitions a run of a program goes through. *)
Ltac open_programs :=
  unfold
    OffboardVelocity.main, OffboardVelocity.offb_ctrl_attitude,
    OffboardVelocity.offboard_error_exit, OffboardVelocity.offboard_log,
    OffboardVelocity.wait_until_discover, OffboardVelocity.usage,
    OffboardVelocityWorking.main, OffboardVelocityWorking.offb_ctrl_ned,
    OffboardVelocityWorking.offb_ctrl_ned_go_down,
    OffboardVelocityWorking.offb_ctrl_body,
    OffboardVelocityWorking.offb_ctrl_attitude,
    OffboardVelocityWorking.in_air_callback,
    OffboardVelocityWorking.get_system, OffboardVelocityWorking.usage,
    OffboardAttitudeControl.main, OffboardAttitudeControl.offb_ctrl_attitude,
    OffboardAttitudeControl.get_system, OffboardAttitudeControl.usage,
    OffboardTelemetryHealth.main, OffboardTelemetryHealth.get_system,
    OffboardTelemetryHealth.usage,
    OffboardReadBlocking.main, OffboardReadBlocking.get_system,
    OffboardReadBlocking.usage,
    OffboardVision.main, OffboardVision.get_system, OffboardVision.usage,
    OffboardPositionControl.main, OffboardPositionControl.offb_ctrl_ned,
    OffboardPositionControl.offb_ctrl_body,
    OffboardPositionControl.offb_ctrl_attitude,
    OffboardPositionControl.get_system, OffboardPositionControl.usage,
    Shared.get_system, Shared.usage, Shared.landing_wait in *.

(** Taking a hypothesis [H : In e tr] apart, [tr] being the trace of a
    symbolic run: every position of [tr] is looked at, the positions that
    cannot hold [e] are dropped. *)
Ltac loop_absurd H :=
  match goal with
  | Hev : Forall _ ?L |- _ =>
      match type of H with
      | In _ L =>
          rewrite Forall_forall in Hev; specialize (Hev _ H); exact Hev
      end
  end.

Ltac split_In H :=
  cbn in H;
  repeat
    match type of H with
    | _ \/ _ =>
        destruct H as [H | H];
        [ try discriminate H; try (injection H as ?; subst) | cbn in H ]
    | In _ (_ ++ _) =>
        apply in_app_or in H; destruct H as [H | H];
        [ try solve [exfalso; loop_absurd H] | cbn in H ]
    | In _ ?L => is_var L; exfalso; loop_absurd H
    | False => contradiction
    end.

(** The same for [H : In e tr] with [e] unknown and [Hp : p e = true]:
    the positions whose event does not pass [p] are dropped. *)
Ltac loop_event_absurd H Hp :=
  match goal with
  | Hev : Forall _ ?L |- _ =>
      match type of H with
      | In ?e L =>
          rewrite Forall_forall in Hev; specialize (Hev _ H);
          destruct e; cbn in Hev, Hp;
          solve [contradiction | discriminate Hp]
      end
  end.

Ltac event_cases H Hp :=
  cbn in H;
  repeat
    match type of H with
    | _ \/ _ =>
        destruct H as [H | H];
        [ try (subst; cbn in Hp; discriminate Hp) | cbn in H ]
    | In _ (_ ++ _) =>
        apply in_app_or in H; destruct H as [H | H];
        [ try solve [exfalso; loop_event_absurd H Hp] | cbn in H ]
    | In _ ?L => is_var L; exfalso; loop_event_absurd H Hp
    | False => contradiction
    end.

(** Proving [In e tr] for an [e] that stands at a known place. *)
Ltac find_In :=
  cbn;
  repeat
    first
      [ left; reflexivity
      | right
      | apply in_or_app ].


(** Stepping a check over the events of a loop. *)
Ltac quiet :=
  first
    [ apply ned_loop_quiet; assumption
    | apply poll_quiet; assumption
    | apply vision_loop_quiet; assumption
    | apply poll_no_setpoint; assumption ].

Ltac skip_loops :=
  cbn;
  repeat
    (first
       [ rewrite first_failure_aborts_skip by quiet
       | rewrite first_failure_aborts_quiet by quiet
       | rewrite marker_after_last_app;
         try rewrite marker_after_last_keep by quiet ];
     cbn).

(** Membership in the trace of a concrete run. *)
Ltac in_run := open_programs; exec; find_In.

(* ================================================================== *)
(** * Properties of the programs *)
(* ================================================================== *)

Section Claims.
Context {F : Float32}.

(** C1.  When offboard mode has started, [offb_ctrl_ned] of
    offboard_velocity_working.cpp announces "Go down 1 m/s, turn to
    face North" and then sends [down_and_north] as it was
    value-initialised: every member zero.  The assignment
    [down_m_s = 1.0f] goes to [up_and_south], which was sent in the step
    before (two metres per second upwards, yaw 180) and is not sent
    again: no setpoint follows, and what follows does not depend on
    [up_and_south]. *)
Theorem C1_down_and_north_is_sent_zero :
  (forall env n,
     In (OffboardStart Offboard.Success)
        (trace (OffboardVelocityWorking.offb_ctrl_ned env n)) ->
     exists pre up_and_south post,
       trace (OffboardVelocityWorking.offb_ctrl_ned env n) =
         pre ++
         [ Print cout [Txt "Go up 2 m/s, turn to face South"; Nl];
           OffboardSet (Offboard.SetVelocityNed up_and_south);
           Sleep (seconds 4);
           Print cout [Txt "Go down 1 m/s, turn to face North"; Nl];
           OffboardSet (Offboard.SetVelocityNed Offboard.VelocityNedYaw0);
           Sleep (seconds 4) ] ++ post /\
       Offboard.down_m_s up_and_south = lit (-2) /\
       Offboard.vn_yaw_deg up_and_south = lit 180 /\
       (forall e, In e post -> is_setpoint e = false)) /\
  (Offboard.north_m_s Offboard.VelocityNedYaw0 = lit 0 /\
   Offboard.east_m_s Offboard.VelocityNedYaw0 = lit 0 /\
   Offboard.down_m_s Offboard.VelocityNedYaw0 = lit 0 /\
   Offboard.vn_yaw_deg Offboard.VelocityNedYaw0 = lit 0) /\
  (forall up_and_south up_and_south' down_and_north,
     OffboardVelocityWorking.offb_ctrl_ned_go_down
       up_and_south down_and_north =
     OffboardVelocityWorking.offb_ctrl_ned_go_down
       up_and_south' down_and_north).
Proof.
  split; [| split].
  - intros env n. open_programs. exec; intros H.
    3: split_In H.
    all: match goal with
         | |- exists _ _ _,
               ?a1 :: ?a2 :: ?a3 :: ?a4 :: ?a5 :: ?a6 :: ?a7 :: ?a8
               :: ?L ++ ?w1 :: ?w2 :: ?w3 :: _ = _ /\ _ =>
             exists (a1 :: a2 :: a3 :: a4 :: a5 :: a6 :: a7 :: a8
                     :: L ++ [w1; w2; w3])
         end.
    all: eexists; eexists; split;
      [ cbn; rewrite <- app_assoc; reflexivity | ].
    all: split; [reflexivity | split; [reflexivity |]].
    all: intros e He; cbn in He;
      repeat (destruct He as [He | He]; [subst e; reflexivity |]);
      contradiction.
  - repeat split.
  - reflexivity.
Qed.

(** C2, as the code has it.  [offb_ctrl_ned] and [offb_ctrl_body] of
    offboard_velocity_working.cpp and the three control functions of
    the second unit of offboard_vision.cpp call [offboard.stop()] after
    their last setpoint on every run that returns [true].  The three
    functions [offb_ctrl_attitude] of offboard_velocity.cpp,
    offboard_velocity_working.cpp and offboard_attitude_control.cpp have
    that call commented out: they return [true] and offboard mode is
    never stopped. *)
Theorem C2_stop_after_last_setpoint :
  forall env n,
    Forall stops_when_done
      [ OffboardVelocityWorking.offb_ctrl_ned env n;
        OffboardVelocityWorking.offb_ctrl_body env n;
        OffboardPositionControl.offb_ctrl_ned env n;
        OffboardPositionControl.offb_ctrl_body env n;
        OffboardPositionControl.offb_ctrl_attitude env n ] /\
    Forall never_stops
      [ OffboardVelocity.offb_ctrl_attitude env n;
        OffboardVelocityWorking.offb_ctrl_attitude env n;
        OffboardAttitudeControl.offb_ctrl_attitude env n ].
Proof.
  intros env n. split.
  - repeat apply Forall_cons; try apply Forall_nil; unfold stops_when_done.
    all: open_programs; exec; intros Hret; try discriminate Hret.
    all: apply marker_after_last_correct; skip_loops.
    all: reflexivity.
  - repeat apply Forall_cons; try apply Forall_nil; unfold never_stops.
    all: open_programs; exec.
    all: (split; [intros res H; split_In H | intros H; split_In H]).
    all: reflexivity.
Qed.

(** C3.  Each of the eight control functions sends a setpoint with
    [set_attitude], [set_velocity_ned] or [set_velocity_body] before it
    calls [offboard.start()]. *)
Theorem C3_setpoint_before_start :
  forall env n,
    Forall starts_primed
      [ OffboardVelocity.offb_ctrl_attitude env n;
        OffboardVelocityWorking.offb_ctrl_ned env n;
        OffboardVelocityWorking.offb_ctrl_body env n;
        OffboardVelocityWorking.offb_ctrl_attitude env n;
        OffboardAttitudeControl.offb_ctrl_attitude env n;
        OffboardPositionControl.offb_ctrl_ned env n;
        OffboardPositionControl.offb_ctrl_body env n;
        OffboardPositionControl.offb_ctrl_attitude env n ].
Proof.
  intros env n.
  repeat apply Forall_cons; try apply Forall_nil.
  all: apply starts_primed_check; open_programs; exec.
  all: first [reflexivity | apply preceded_seen].
Qed.


(** Every run of every program passes [run_verdict]: what C5 and C7
    rest on. *)
Lemma mains_verdict :
  forall bin_name args env n fuel,
    Forall (fun r => run_verdict r = true)
      [ OffboardVelocity.main bin_name args env n;
        OffboardVelocityWorking.main fuel bin_name args env n;
        OffboardAttitudeControl.main bin_name args env n;
        OffboardTelemetryHealth.main bin_name args env n;
        OffboardReadBlocking.main bin_name args env n;
        OffboardVision.main bin_name args env n;
        OffboardPositionControl.main fuel bin_name args env n ].
Proof.
  intros bin_name args env n fuel.
  repeat apply Forall_cons; try apply Forall_nil.
  all: open_programs; destruct args as [| a [| b l]]; exec.
  all: unfold run_verdict; skip_loops; reflexivity.
Qed.


(** C6, as the code has it.  In offboard_velocity_working.cpp,
    offboard_attitude_control.cpp and the second unit of
    offboard_vision.cpp a refused start or stop makes the control
    function return [false], and no run of their [main] ends in [exit].
    In offboard_velocity.cpp a refused start ends the process:
    [offboard_error_exit] calls [exit(EXIT_FAILURE)]. *)
Theorem C6_offboard_failures :
  (forall env n,
     Forall surfaces_failure
       [ OffboardVelocityWorking.offb_ctrl_ned env n;
         OffboardVelocityWorking.offb_ctrl_body env n;
         OffboardVelocityWorking.offb_ctrl_attitude env n;
         OffboardAttitudeControl.offb_ctrl_attitude env n;
         OffboardPositionControl.offb_ctrl_ned env n;
         OffboardPositionControl.offb_ctrl_body env n;
         OffboardPositionControl.offb_ctrl_attitude env n ]) /\
  (forall env n e,
     In e (trace (OffboardVelocity.offb_ctrl_attitude env n)) ->
     offboard_failure e = true ->
     outcome (OffboardVelocity.offb_ctrl_attitude env n)
       = Exited EXIT_FAILURE) /\
  (forall bin_name args env n fuel status,
     Forall (fun r : Outcome Z * Trace => outcome r <> Exited status)
       [ OffboardVelocityWorking.main fuel bin_name args env n;
         OffboardAttitudeControl.main bin_name args env n;
         OffboardPositionControl.main fuel bin_name args env n ]).
Proof.
  split; [| split].
  - intros env n.
    repeat apply Forall_cons; try apply Forall_nil; unfold surfaces_failure.
    all: open_programs; exec.
    all: (split; [eexists; reflexivity |]).
    all: intros e H Hp; event_cases H Hp; reflexivity.
  - intros env n e. open_programs. exec; intros H Hp; event_cases H Hp.
    reflexivity.
  - intros bin_name args env n fuel status.
    repeat apply Forall_cons; try apply Forall_nil.
    all: open_programs; destruct args as [| a [| b l]]; exec; discriminate.
Qed.

(** C7.  In every program a failure of a tested result (connection,
    discovery, arming, take-off, landing, start or stop of offboard
    mode) ends the process with status 1, by [return 1] from [main] or
    by [exit(EXIT_FAILURE)], and only output follows the failure: the
    operation is not tried again and no other call is made. *)
Theorem C7_failure_ends_the_process :
  forall bin_name args env n fuel,
    Forall failure_is_final
      [ OffboardVelocity.main bin_name args env n;
        OffboardVelocityWorking.main fuel bin_name args env n;
        OffboardAttitudeControl.main bin_name args env n;
        OffboardTelemetryHealth.main bin_name args env n;
        OffboardReadBlocking.main bin_name args env n;
        OffboardVision.main bin_name args env n;
        OffboardPositionControl.main fuel bin_name args env n ].
Proof.
  intros bin_name args env n fuel.
  eapply Forall_impl; [| apply mains_verdict].
  intros r Hv. apply run_verdict_sound. exact Hv.
Qed.

(** C8.  Called with anything but exactly one argument after the
    program name, [main] prints the usage text and returns 1.  The run
    holds no other event: no connection is added, nothing is discovered,
    no plugin is made and no command is sent.  In
    offboard_velocity.cpp the declaration [Mavsdk mavsdk;] stands above
    the test of [argc], so that object is built first. *)
Theorem C8_usage_on_wrong_argument_count :
  forall (bin_name : string) (args : list string) (env : Env) (n fuel : nat),
    List.length args <> 1 ->
    OffboardVelocityWorking.main fuel bin_name args env n
      = (Returned 1%Z, [Print cerr (Shared.usage_text bin_name)]) /\
    OffboardAttitudeControl.main bin_name args env n
      = (Returned 1%Z, [Print cerr (Shared.usage_text bin_name)]) /\
    OffboardTelemetryHealth.main bin_name args env n
      = (Returned 1%Z, [Print cerr (Shared.usage_text bin_name)]) /\
    OffboardReadBlocking.main bin_name args env n
      = (Returned 1%Z, [Print cerr (Shared.usage_text bin_name)]) /\
    OffboardVision.main bin_name args env n
      = (Returned 1%Z, [Print cerr (Shared.usage_text bin_name)]) /\
    OffboardPositionControl.main fuel bin_name args env n
      = (Returned 1%Z, [Print cerr (Shared.usage_text bin_name)]) /\
    OffboardVelocity.main bin_name args env n
      = (Returned 1%Z,
         [MavsdkNew; Print cout (OffboardVelocity.usage_text bin_name)]).
Proof.
  intros bin_name args env n fuel Hargs.
  assert (Hargc : (S (List.length args) =? 2) = false).
  { apply Nat.eqb_neq. lia. }
  open_programs. rewrite Hargc.
  repeat split; reflexivity.
Qed.

(** C9.  [get_system] waits once, three seconds at most, and returns
    what the wait has delivered: the empty pointer when no autopilot
    was found in time.  Every [main] that calls [get_system] returns 1
    on the empty pointer before it makes a plugin, and makes plugins
    only from a system that was found. *)
Theorem C9_no_autopilot_no_plugin :
  (forall env n,
     exists found,
       outcome (Shared.get_system env n) = Returned found /\
       In (WaitNewSystem (Some 3%Z) found)
          (trace (Shared.get_system env n)) /\
       forall t found',
         In (WaitNewSystem t found') (trace (Shared.get_system env n)) ->
         found' = found) /\
  (forall bin_name args env n fuel,
     Forall no_autopilot_is_handled
       [ OffboardVelocityWorking.main fuel bin_name args env n;
         OffboardAttitudeControl.main bin_name args env n;
         OffboardTelemetryHealth.main bin_name args env n;
         OffboardReadBlocking.main bin_name args env n;
         OffboardVision.main bin_name args env n;
         OffboardPositionControl.main fuel bin_name args env n ]).
Proof.
  split.
  - intros env n. open_programs. exec.
    + eexists. split; [reflexivity |]. split; [find_In |].
      intros t found' H. split_In H. reflexivity.
    + eexists. split; [reflexivity |]. split; [find_In |].
      intros t found' H. split_In H. reflexivity.
  - intros bin_name args env n fuel.
    repeat apply Forall_cons; try apply Forall_nil;
      unfold no_autopilot_is_handled.
    all: open_programs; destruct args as [| a [| b l]];
      [ cbn; split; [intros H; split_In H | intros p s H; split_In H]
      |
      | cbn; split; [intros H; split_In H | intros p s H; split_In H] ].
    all: exec.
    all: (split;
          [ intros H; split_In H;
            try (split; [reflexivity | intros p s' H'; split_In H'])
          | intros p s' H; split_In H; find_In ]).
Qed.

(** C10.  [offb_ctrl_attitude] of offboard_velocity.cpp returns [true]
    whenever it returns: a refused start ends the process in
    [offboard_error_exit] with [EXIT_FAILURE].  Hence [main], once it
    has entered the function (a setpoint is in the trace), either
    completes with [EXIT_SUCCESS] or is ended by that [exit]; it never
    returns through [if (ret == false)]. *)
Theorem C10_offb_ctrl_attitude_never_returns_false :
  (forall env n,
     outcome (OffboardVelocity.offb_ctrl_attitude env n) = Returned true \/
     outcome (OffboardVelocity.offb_ctrl_attitude env n)
       = Exited EXIT_FAILURE) /\
  (forall env n e,
     In e (trace (OffboardVelocity.offb_ctrl_attitude env n)) ->
     offboard_failure e = true ->
     outcome (OffboardVelocity.offb_ctrl_attitude env n)
       = Exited EXIT_FAILURE) /\
  (forall bin_name args env n e,
     In e (trace (OffboardVelocity.main bin_name args env n)) ->
     is_setpoint e = true ->
     outcome (OffboardVelocity.main bin_name args env n)
       = Returned EXIT_SUCCESS \/
     outcome (OffboardVelocity.main bin_name args env n)
       = Exited EXIT_FAILURE).
Proof.
  split; [| split].
  - intros env n. open_programs. exec; auto.
  - intros env n e. open_programs. exec; intros H Hp; event_cases H Hp.
    reflexivity.
  - intros bin_name args env n e. open_programs.
    destruct args as [| a [| b l]]; exec;
      intros H Hp; event_cases H Hp; auto.
Qed.
End Claims.

(* ================================================================== *)
(** * The claims at concrete inputs *)
(* ================================================================== *)

(** C1 at a concrete input: a run in which every command is accepted. *)
Lemma C1_witness :
  exists pre up_and_south post,
    trace (OffboardVelocityWorking.offb_ctrl_ned (F := QFloat.impl) env_ok 0) =
      pre ++
      [ Print cout [Txt "Go up 2 m/s, turn to face South"; Nl];
        OffboardSet (Offboard.SetVelocityNed up_and_south);
        Sleep (seconds 4);
        Print cout [Txt "Go down 1 m/s, turn to face North"; Nl];
        OffboardSet (Offboard.SetVelocityNed Offboard.VelocityNedYaw0);
        Sleep (seconds 4) ] ++ post /\
    Offboard.down_m_s up_and_south = lit (-2) /\
    Offboard.vn_yaw_deg up_and_south = lit 180 /\
    (forall e, In e post -> is_setpoint e = false).
Proof.
  apply (proj1 (C1_down_and_north_is_sent_zero (F := QFloat.impl)) env_ok 0).
  in_run.
Defined.

(** C2 at a concrete input: the body-frame sequence, every command
    accepted. *)
Lemma C2_witness :
  after_last_setpoint is_stop
    (trace (OffboardVelocityWorking.offb_ctrl_body (F := QFloat.impl)
              env_ok 0)).
Proof.
  pose proof (proj1 (C2_stop_after_last_setpoint (F := QFloat.impl) env_ok 0))
    as Hall.
  apply Forall_inv_tail, Forall_inv in Hall.
  apply Hall. open_programs. exec. reflexivity.
Defined.

(** C2 as stated fails: [offb_ctrl_attitude] of offboard_velocity.cpp
    returns [true] and has not stopped offboard mode. *)
Lemma C2_counterexample :
  outcome (OffboardVelocity.offb_ctrl_attitude (F := QFloat.impl) env_ok 0)
    = Returned true /\
  ~ after_last_setpoint is_stop
      (trace (OffboardVelocity.offb_ctrl_attitude (F := QFloat.impl)
                env_ok 0)).
Proof.
  split.
  - open_programs. exec. reflexivity.
  - intros (pre & m & post & Heq & Hm & _).
    assert (Hin : In m (trace (OffboardVelocity.offb_ctrl_attitude
                                 (F := QFloat.impl) env_ok 0))).
    { rewrite Heq. apply in_elt. }
    clear Heq. revert Hin. open_programs. exec.
    intros Hin. event_cases Hin Hm.
Qed.





(** C6 at a concrete input: [offb_ctrl_ned] of the position control
    program when the vehicle refuses offboard mode. *)
Lemma C6_witness :
  outcome (OffboardPositionControl.offb_ctrl_ned (F := QFloat.impl)
             env_offboard_refused 0) = Returned false.
Proof.
  pose proof (proj1 (C6_offboard_failures (F := QFloat.impl))
                env_offboard_refused 0) as Hall.
  apply Forall_inv_tail, Forall_inv_tail, Forall_inv_tail,
        Forall_inv_tail, Forall_inv in Hall.
  apply (proj2 Hall (OffboardStart (Offboard.Error 5))).
  - in_run.
  - reflexivity.
Defined.

(** C6 as stated fails: in offboard_velocity.cpp a start that the
    vehicle refuses ends the process through [exit]. *)
Lemma C6_counterexample :
  In (OffboardStart (Offboard.Error 5))
     (trace (OffboardVelocity.offb_ctrl_attitude (F := QFloat.impl)
               env_offboard_refused 0)) /\
  Offboard.is_success (Offboard.Error 5) = false /\
  outcome (OffboardVelocity.offb_ctrl_attitude (F := QFloat.impl)
             env_offboard_refused 0) = Exited EXIT_FAILURE.
Proof.
  split; [in_run | split; [reflexivity |]].
  open_programs. exec. reflexivity.
Qed.

(** C7 at a concrete input: the vehicle refuses offboard mode in the
    position control program; [main] returns 1. *)
Lemma C7_witness :
  outcome (OffboardPositionControl.main (F := QFloat.impl) 1
             "offboard_position_control" [url] env_offboard_refused 0)
    = Returned 1%Z \/
  outcome (OffboardPositionControl.main (F := QFloat.impl) 1
             "offboard_position_control" [url] env_offboard_refused 0)
    = Exited EXIT_FAILURE.
Proof.
  pose proof (C7_failure_ends_the_process (F := QFloat.impl)
                "offboard_position_control" [url] env_offboard_refused 0 1)
    as Hall.
  do 6 apply Forall_inv_tail in Hall. apply Forall_inv in Hall.
  apply (Hall
           (plugins_prefix ++
            [ ActionCall Action.Arm Action.Success;
              Print cout [Txt "Armed"; Nl];
              ActionCall Action.Takeoff Action.Success;
              Sleep (seconds 8);
              Print cout
                [Txt "Starting Offboard velocity control in NED coordinates";
                 Nl];
              OffboardSet (Offboard.SetVelocityNed Offboard.VelocityNedYaw0) ])
           (OffboardStart (Offboard.Error 5))
           [Print cerr
              [Txt "Offboard start failed: ";
               ShowOffboard (Offboard.Error 5); Nl]]).
  - open_programs. exec. reflexivity.
  - reflexivity.
Defined.

(** C8 at a concrete input: no argument at all. *)
Lemma C8_witness :
  OffboardVision.main (F := QFloat.impl) "offboard_vision" [] env_ok 0
    = (Returned 1%Z, [Print cerr (Shared.usage_text "offboard_vision")]).
Proof.
  apply (C8_usage_on_wrong_argument_count
           (F := QFloat.impl) "offboard_vision" [] env_ok 0 0).
  cbn. lia.
Defined.

(** C8 as stated fails: called without an argument, offboard_velocity.cpp
    has built its [Mavsdk] object before it prints the usage text. *)
Lemma C8_counterexample :
  In MavsdkNew
     (trace (OffboardVelocity.main (F := QFloat.impl)
               "offboard_velocity" [] env_ok 0)) /\
  ~ only_prints_usage (OffboardVelocity.usage_text "offboard_velocity")
      (OffboardVelocity.main (F := QFloat.impl)
         "offboard_velocity" [] env_ok 0).
Proof.
  split.
  - left. reflexivity.
  - intros (_ & s & Htrace). discriminate Htrace.
Qed.

(** C9 at a concrete input: the connection is made and no autopilot
    shows up. *)
Lemma C9_witness :
  In (WaitNewSystem (Some 3%Z) None)
     (trace (OffboardReadBlocking.main (F := QFloat.impl)
               "offboard_read" [url] env_no_autopilot 0)) /\
  outcome (OffboardReadBlocking.main (F := QFloat.impl)
             "offboard_read" [url] env_no_autopilot 0) = Returned 1%Z.
Proof.
  assert (Hin : In (WaitNewSystem (F := QFloat.impl) (Some 3%Z) None)
                  (trace (OffboardReadBlocking.main (F := QFloat.impl)
                            "offboard_read" [url] env_no_autopilot 0))).
  { in_run. }
  split; [exact Hin |].
  pose proof (proj2 (C9_no_autopilot_no_plugin (F := QFloat.impl))
                "offboard_read" [url] env_no_autopilot 0 0) as Hall.
  apply Forall_inv_tail, Forall_inv_tail, Forall_inv_tail, Forall_inv in Hall.
  exact (proj1 (proj1 Hall Hin)).
Defined.

(** C10 at a concrete input: a run of offboard_velocity.cpp that enters
    [offb_ctrl_attitude]. *)
Lemma C10_witness :
  outcome (OffboardVelocity.main (F := QFloat.impl)
             "offboard_velocity" [url] env_ok 0) = Returned EXIT_SUCCESS \/
  outcome (OffboardVelocity.main (F := QFloat.impl)
             "offboard_velocity" [url] env_ok 0) = Exited EXIT_FAILURE.
Proof.
  apply (proj2 (proj2 (C10_offb_ctrl_attitude_never_returns_false
                         (F := QFloat.impl)))
           "offboard_velocity" [url] env_ok 0
           (OffboardSet (Offboard.SetVelocityBody
                           (Offboard.VelocityBodyYawspeed0
                              (F := QFloat.impl))))).
  - in_run.
  - reflexivity.
Defined.

(** The complete runs. With a budget of one poll both landing programs
    come back with 0 when the vehicle is reported on the ground at once. *)
Example velocity_working_completes :
  outcome (OffboardVelocityWorking.main (F := QFloat.impl) 1
             "offboard_velocity_working" [url] env_ok 0) = Returned 0%Z.
Proof. vm_compute. reflexivity. Qed.

Example position_control_completes :
  outcome (OffboardPositionControl.main (F := QFloat.impl) 1
             "offboard_position_control" [url] env_ok 0) = Returned 0%Z.
Proof. vm_compute. reflexivity. Qed.

(** The velocity loop of [offb_ctrl_ned] runs 1256 times over the
    rationals, as it does in binary32. *)
Example ned_loop_count :
  OffboardVelocityWorking.steps (F := QFloat.impl) = 1256%N.
Proof. vm_compute. reflexivity. Qed.
(* ================================================================== *)
(** * Further lemmas on runs and checks *)
(* ================================================================== *)

Section MoreChecks.
Context {F : Float32}.

Lemma while_loop_step fuel (cond : M bool) (body : M unit) :
  while_loop (S fuel) cond body =
  (b <- cond ;;
   if b then body ;; while_loop fuel cond body else ret tt)%prog.
Proof. reflexivity. Qed.

Lemma for_loop_step from count (body : nat -> M unit) :
  for_loop from (S count) body =
  (body from ;; for_loop (S from) count body)%prog.
Proof. reflexivity. Qed.

(** As long as the vehicle is reported in the air the landing wait
    goes on polling. *)
Lemma landing_wait_flies :
  forall fuel env n,
    (forall j, j < fuel -> in_air (env (n + 3 * j)) = true) ->
    Shared.landing_wait fuel env n = (OutOfFuel, landing_rounds fuel).
Proof.
  unfold Shared.landing_wait.
  induction fuel as [| fuel IH]; intros env n Hair; [reflexivity |].
  rewrite while_loop_step, bind_unfold.
  pose proof (Hair 0 ltac:(lia)) as H0.
  replace (n + 3 * 0) with n in H0 by lia.
  cbn. rewrite H0. cbn.
  assert (Hrest : while_loop fuel telemetry_in_air
            (print cout [Txt "Vehicle is landing..."; Nl] ;;
             sleep_for (seconds 1)) env (n + 1 + 2)
          = (OutOfFuel, landing_rounds fuel)).
  2: { cbn in Hrest. rewrite Hrest. reflexivity. }
  apply IH.
  intros j Hj. specialize (Hair (S j) ltac:(lia)).
  replace (n + 1 + 2 + 3 * j) with (n + 3 * S j) by lia. exact Hair.
Qed.

Lemma landing_rounds_events k e :
  In e (landing_rounds k) -> In e landing_round.
Proof.
  unfold landing_rounds.
  induction k as [| k IH]; cbn [List.repeat List.concat]; intros H.
  - contradiction.
  - apply in_app_or in H. destruct H as [H | H]; [exact H | exact (IH H)].
Qed.

(** The loops of the mains write nothing on [cerr]. *)
Lemma read_all_off_cerr i env n :
  Forall off_cerr (trace (OffboardReadBlocking.read_all i env n)).
Proof. repeat constructor. Qed.

Lemma send_position_off_cerr i env n :
  Forall off_cerr (trace (OffboardVision.send_position i env n)).
Proof. repeat constructor. Qed.

Lemma landing_wait_off_cerr fuel env n :
  Forall off_cerr (trace (Shared.landing_wait fuel env n)).
Proof.
  apply while_loop_Forall; intros; repeat constructor.
Qed.

Lemma quiet_after_first_skip p :
  forall l rest,
    Forall (fun e => p e = false) l ->
    quiet_after_first p (l ++ rest) = quiet_after_first p rest.
Proof.
  induction l as [| e l IH]; intros rest Hq; [reflexivity |].
  inversion Hq as [| ? ? He Hl]; subst. cbn. rewrite He.
  apply IH. exact Hl.
Qed.

Lemma quiet_after_first_sound p :
  (forall e, is_print e = true -> p e = false) ->
  forall tr,
    quiet_after_first p tr = true -> quiet_after p tr.
Proof.
  intros Hdisj. induction tr as [| a tr IH]; intros Hc pre e post Heq He.
  - destruct pre; discriminate Heq.
  - cbn in Hc. destruct pre as [| a' pre]; cbn in Heq;
      injection Heq as <- ->.
    + rewrite He in Hc. apply forallb_forall. exact Hc.
    + destruct (p a) eqn:Ha.
      * rewrite forallb_forall in Hc.
        specialize (Hc e (in_elt e pre post)).
        apply Hdisj in Hc. congruence.
      * eapply IH; [exact Hc | reflexivity | exact He].
Qed.

Lemma print_not_stop e : is_print e = true -> is_stop e = false.
Proof. destruct e; cbn; intros H; try discriminate H; reflexivity. Qed.

Lemma print_not_refusal e :
  is_print e = true -> offboard_failure e = false.
Proof. destruct e; cbn; intros H; try discriminate H; reflexivity. Qed.

Lemma ned_loop_no_stop l :
  Forall ned_loop_event l -> Forall (fun e => is_stop e = false) l.
Proof.
  apply Forall_impl. intros e He.
  destruct e; cbn in *; solve [reflexivity | contradiction].
Qed.

Lemma ned_loop_no_refusal l :
  Forall ned_loop_event l -> Forall (fun e => offboard_failure e = false) l.
Proof.
  apply Forall_impl. intros e He.
  destruct e; cbn in *; solve [reflexivity | contradiction].
Qed.

Lemma filter_none (p : Event -> bool) l :
  Forall (fun e => p e = false) l -> filter p l = [].
Proof.
  induction 1 as [| e l He _ IH]; [reflexivity |].
  cbn. rewrite He. exact IH.
Qed.

Lemma ned_loop_no_start l :
  Forall ned_loop_event l -> Forall (fun e => is_start e = false) l.
Proof.
  apply Forall_impl. intros e He.
  destruct e; cbn in *; solve [reflexivity | contradiction].
Qed.

Lemma poll_no_unsubscribe l :
  Forall poll_event l ->
  Forall (fun e => is_landed_unsubscribe e = false) l.
Proof.
  apply Forall_impl. intros e He.
  destruct e; cbn in *; solve [reflexivity | contradiction].
Qed.

(** The velocity loop, unrolled. *)
Lemma north_and_back_south_loop :
  forall count from env n,
    for_loop from count OffboardVelocityWorking.north_and_back_south_step
      env n
    = (Returned tt, flat_map north_and_back_south_events (seq from count)).
Proof.
  induction count as [| c IH]; intros from env n; [reflexivity |].
  rewrite for_loop_step, bind_unfold. cbn.
  rewrite IH. reflexivity.
Qed.

Lemma north_and_back_south_setpoints :
  forall l,
    List.length
      (filter is_setpoint (flat_map north_and_back_south_events l))
    = List.length l.
Proof.
  induction l as [| i l IH]; [reflexivity |].
  cbn. f_equal. exact IH.
Qed.

(** The polling loop of offboard_read_blocking.cpp reads thirteen values
    and polls [in_air] once per round. *)
Lemma read_all_gets count :
  forall from env n,
    List.length
      (filter is_telemetry_get
         (trace (for_loop from count OffboardReadBlocking.read_all env n)))
    = 13 * count.
Proof.
  induction count as [| c IH]; intros from env n; [reflexivity |].
  rewrite for_loop_step, bind_unfold. cbn.
  rewrite IH. lia.
Qed.

Lemma read_all_polls count :
  forall from env n,
    List.length
      (filter is_in_air_poll
         (trace (for_loop from count OffboardReadBlocking.read_all env n)))
    = count.
Proof.
  induction count as [| c IH]; intros from env n; [reflexivity |].
  rewrite for_loop_step, bind_unfold. cbn.
  rewrite IH. reflexivity.
Qed.
End MoreChecks.

Section Accepting.
Context {F : Float32}.
Variable env : Env.
Hypothesis Hacc : accepting env.

Lemma accepting_connection i :
  connection_result (env i) = ConnectionResult.Success.
Proof. apply Hacc. Qed.

Lemma accepting_system i : exists s, new_system (env i) = Some s.
Proof.
  destruct (Hacc i) as (_ & Hs & _).
  destruct (new_system (env i)) as [s |]; [exists s; reflexivity |].
  contradiction Hs. reflexivity.
Qed.

Lemma accepting_action i : action_result (env i) = Action.Success.
Proof. apply Hacc. Qed.

Lemma accepting_offboard i : offboard_result (env i) = Offboard.Success.
Proof. apply Hacc. Qed.

Lemma accepting_in_air i : in_air_ready (env i) = true.
Proof. apply Hacc. Qed.
End Accepting.

(** Symbolic execution in an environment that accepts everything. *)
Ltac accept Hacc :=
  match goal with
  | |- context [connection_result (?e ?i)] =>
      rewrite (accepting_connection Hacc i)
  | |- context [action_result (?e ?i)] =>
      rewrite (accepting_action Hacc i)
  | |- context [offboard_result (?e ?i)] =>
      rewrite (accepting_offboard Hacc i)
  | |- context [in_air_ready (?e ?i)] =>
      rewrite (accepting_in_air Hacc i)
  | |- context [new_system (?e ?i)] =>
      let s := fresh "s" in
      let Hs := fresh "Hs" in
      destruct (accepting_system Hacc i) as [s Hs]; rewrite Hs
  end.

Ltac exec_accepted Hacc :=
  expose; cbn; repeat (first [accept Hacc | sweep_for]; cbn).

(** Stepping over the landing wait when the vehicle lands. *)
Ltac sweep_landed :=
  match goal with
  | Hland : lands_by ?bound ?e, Hlt : ?bound < ?f
    |- context [while_loop ?f ?c ?b ?e ?i] =>
      let Ho := fresh "Hout" in
      let o := fresh "o" in
      let W := fresh "W" in
      pose proof (@landing_wait_terminates _ bound e i
                    (Hland (i + 3 * bound) ltac:(lia)) f Hlt) as Ho;
      change (Shared.landing_wait f e i) with (while_loop f c b e i) in Ho;
      destruct (while_loop f c b e i) as [o W]; cbn in Ho; subst o
  end.

(** Counting the events of a kind in the trace of a symbolic run. *)
Ltac loop_none :=
  first
    [ apply ned_loop_no_start; assumption
    | apply ned_loop_no_stop; assumption
    | apply ned_loop_no_refusal; assumption
    | apply poll_no_unsubscribe; assumption ].

Ltac count_events :=
  cbn;
  repeat (rewrite filter_app, length_app; cbn);
  repeat (rewrite filter_none by loop_none; cbn);
  try lia.

Ltac check_quiet :=
  cbn;
  repeat (rewrite quiet_after_first_skip by loop_none; cbn);
  reflexivity.

(** A refused start or stop that stands in the trace. *)
Ltac find_refusal :=
  first
    [ eexists (OffboardStart (Offboard.Error _));
      split; [solve [find_In] | reflexivity]
    | eexists (OffboardStop (Offboard.Error _));
      split; [solve [find_In] | reflexivity] ].

(** Splitting a trace [a :: b :: ... :: middle ++ post] at [middle]. *)
Ltac split_at_loop :=
  repeat
    match goal with
    | |- exists pre post, ?a :: ?t = pre ++ ?M ++ post =>
        cut (exists pre post, t = pre ++ M ++ post);
        [ let p := fresh "p" in
          let q := fresh "q" in
          let E := fresh "E" in
          intros (p & q & E); exists (a :: p), q; cbn; f_equal; exact E
        | ]
    end;
  exists []; eexists; reflexivity.

(** Stepping over the landing wait, keeping that it writes nothing on
    [cerr]. *)
Ltac sweep_landing_off_cerr :=
  match goal with
  | |- context [while_loop ?f ?c ?b ?e ?i] =>
      let Ho := fresh "Hout" in
      let He := fresh "Hev" in
      let Hp := fresh "Hpoll" in
      let o := fresh "o" in
      let W := fresh "W" in
      pose proof (landing_wait_outcome f e i) as Ho;
      pose proof (landing_wait_off_cerr f e i) as He;
      pose proof (landing_wait_events f e i) as Hp;
      change (Shared.landing_wait f e i)
        with (while_loop f c b e i) in Ho, He, Hp;
      destruct (while_loop f c b e i) as [o W];
      cbn in Ho, He, Hp; destruct Ho; subst o
  end.

Ltac exec_off_cerr :=
  expose; cbn;
  repeat (first [branch | sweep_for | sweep_landing_off_cerr]; cbn).

(** What is known of the loop of a main about [cerr]. *)
Ltac loops_off_cerr :=
  repeat
    match goal with
    | Hloop : for_loop ?from ?count ?body ?e ?i = (_, ?L) |- _ =>
        lazymatch goal with
        | _ : Forall off_cerr L |- _ => fail
        | _ => idtac
        end;
        let H := fresh "Hcerr" in
        first
          [ pose proof (@for_loop_Forall _ off_cerr body
                          read_all_off_cerr count from e i) as H
          | pose proof (@for_loop_Forall _ off_cerr body
                          send_position_off_cerr count from e i) as H ];
        rewrite Hloop in H; cbn in H
    end.

(* ================================================================== *)
(** * Further properties of the programs *)
(* ================================================================== *)

Section Extras.
Context {F : Float32}.

(** X1.  The wait that ends [main] in offboard_velocity_working.cpp
    and in the second unit of offboard_vision.cpp polls [in_air] once
    per round, prints "Vehicle is landing..." and sleeps one second.
    The first report of the vehicle on the ground ends it: after [k]
    rounds in the air the wait returns having made [k + 1] polls, and
    nothing follows the last poll. *)
Theorem X1_landing_wait_ends_on_ground :
  forall k fuel env n,
    (forall j, j < k -> in_air (env (n + 3 * j)) = true) ->
    in_air (env (n + 3 * k)) = false ->
    k < fuel ->
    Shared.landing_wait fuel env n
    = (Returned tt, landing_rounds k ++ [TelemetryInAir false]).
Proof.
  unfold Shared.landing_wait.
  induction k as [| k IH]; intros fuel env n Hair Hland Hlt;
    (destruct fuel as [| fuel]; [lia |]);
    rewrite while_loop_step, bind_unfold.
  - replace (n + 3 * 0) with n in Hland by lia.
    cbn. rewrite Hland. reflexivity.
  - pose proof (Hair 0 ltac:(lia)) as H0.
    replace (n + 3 * 0) with n in H0 by lia.
    cbn. rewrite H0. cbn.
    assert (Hrest : while_loop fuel telemetry_in_air
              (print cout [Txt "Vehicle is landing..."; Nl] ;;
               sleep_for (seconds 1)) env (n + 1 + 2)
            = (Returned tt, landing_rounds k ++ [TelemetryInAir false])).
    2: { cbn in Hrest. rewrite Hrest. reflexivity. }
    apply IH.
    + intros j Hj. specialize (Hair (S j) ltac:(lia)).
      replace (n + 1 + 2 + 3 * j) with (n + 3 * S j) by lia. exact Hair.
    + replace (n + 1 + 2 + 3 * k) with (n + 3 * S k) by lia. exact Hland.
    + lia.
Qed.

(** X2.  The landing wait has no timeout.  With a connection, an
    autopilot, and every command accepted, a vehicle that is reported
    in the air for ever keeps [main] of offboard_velocity_working.cpp
    and of the second unit of offboard_vision.cpp in the wait: however
    many rounds are allowed, the run is still polling when they are
    used up: after the accepted [action.land()] it holds the rounds of
    the wait and nothing else, and neither "Landed!" nor "Finished..."
    is printed. *)
Theorem X2_no_landing_no_end :
  forall env bin_name connection_url fuel,
    accepting env ->
    (forall i, in_air (env i) = true) ->
    Forall (stuck_in_landing_wait fuel)
      [ OffboardVelocityWorking.main fuel bin_name [connection_url] env 0;
        OffboardPositionControl.main fuel bin_name [connection_url] env 0 ].
Proof.
  intros env bin_name connection_url fuel Hacc Hair.
  repeat apply Forall_cons; try apply Forall_nil;
    unfold stuck_in_landing_wait.
  all: open_programs; exec_accepted Hacc.
  all: match goal with
       | |- context [while_loop ?f ?c ?b ?e ?i] =>
           pose proof (@landing_wait_flies _ f e i (fun j _ => Hair _))
             as Hwait;
           change (Shared.landing_wait f e i)
             with (while_loop f c b e i) in Hwait;
           rewrite Hwait
       end.
  all: split; [reflexivity | cbn].
  all: split; [| split; intros H; split_In H;
                 apply landing_rounds_events in H; split_In H].
  all: repeat
         match goal with
         | |- exists pre, ?a :: ?t = pre ++ ?M =>
             first
               [ solve [exists []; reflexivity]
               | cut (exists pre, t = pre ++ M);
                 [ let p := fresh "p" in
                   let E := fresh "E" in
                   intros (p & E); exists (a :: p); cbn; f_equal; exact E
                 | ] ]
         end.
Qed.

(** X3.  [const unsigned steps = 2 * unsigned(one_cycle / step_size)]
    is computed in [unsigned]: [steps] is below 2^32 and even, and it is
    twice the truncated quotient as long as the quotient is below
    2^31. *)
Theorem X3_steps_wrap_around :
  (OffboardVelocityWorking.steps < 2 ^ 32)%N /\
  N.even OffboardVelocityWorking.steps = true /\
  ((unsigned_of_float
      (fdiv OffboardVelocityWorking.one_cycle
         OffboardVelocityWorking.step_size) < 2 ^ 31)%N ->
   OffboardVelocityWorking.steps
   = (2 * unsigned_of_float
            (fdiv OffboardVelocityWorking.one_cycle
               OffboardVelocityWorking.step_size))%N).
Proof.
  unfold OffboardVelocityWorking.steps, umul, UINT_MOD.
  set (q := unsigned_of_float _).
  repeat split.
  - apply N.mod_lt. discriminate.
  - change (2 ^ 32)%N with (2 * 2 ^ 31)%N.
    rewrite N.Div0.mul_mod_distr_l.
    rewrite N.even_mul. reflexivity.
  - intros Hq. apply N.mod_small.
    change (2 ^ 32)%N with (2 * 2 ^ 31)%N. lia.
Qed.
(** X4.  A run of [offb_ctrl_ned] of offboard_velocity_working.cpp
    that returns [true] holds the whole velocity loop: for every [i]
    below [steps], in order, the setpoint with north speed
    [5 * sinf(i * step_size)], east and down speed 0 and yaw 90,
    followed by a sleep of 10 ms.  With the priming setpoint and the
    four steps around the loop it sends [steps + 5] setpoints. *)
Theorem X4_ned_loop_setpoints :
  forall env n,
    outcome (OffboardVelocityWorking.offb_ctrl_ned env n) = Returned true ->
    (exists pre post,
       trace (OffboardVelocityWorking.offb_ctrl_ned env n)
       = pre
         ++ flat_map north_and_back_south_events
              (seq 0 (N.to_nat OffboardVelocityWorking.steps))
         ++ post) /\
    List.length
      (filter is_setpoint
         (trace (OffboardVelocityWorking.offb_ctrl_ned env n)))
    = N.to_nat OffboardVelocityWorking.steps + 5.
Proof.
  intros env n. open_programs. exec; intros Hret; try discriminate Hret.
  match goal with
  | Hloop : for_loop ?from ?count _ ?e ?i = (_, ?L) |- _ =>
      pose proof (north_and_back_south_loop count from e i) as Hc;
      rewrite Hloop in Hc; injection Hc as ->
  end.
  split.
  - split_at_loop.
  - cbn. rewrite filter_app, length_app, north_and_back_south_setpoints,
      length_seq. cbn. lia.
Qed.

(** X5.  Each of the eight control functions runs one offboard
    session: [offboard.start()] is called exactly once and
    [offboard.stop()] at most once on every run; after the call of
    [stop], and after a [start] or [stop] that was refused, the
    function only writes its message: no setpoint, no second start. *)
Theorem X5_one_offboard_session :
  forall env n,
    Forall one_session
      [ OffboardVelocity.offb_ctrl_attitude env n;
        OffboardVelocityWorking.offb_ctrl_ned env n;
        OffboardVelocityWorking.offb_ctrl_body env n;
        OffboardVelocityWorking.offb_ctrl_attitude env n;
        OffboardAttitudeControl.offb_ctrl_attitude env n;
        OffboardPositionControl.offb_ctrl_ned env n;
        OffboardPositionControl.offb_ctrl_body env n;
        OffboardPositionControl.offb_ctrl_attitude env n ].
Proof.
  intros env n.
  repeat apply Forall_cons; try apply Forall_nil; unfold one_session.
  all: open_programs; exec.
  all: split; [count_events | split; [count_events | split]].
  all: apply quiet_after_first_sound;
    [ first [exact print_not_stop | exact print_not_refusal]
    | check_quiet ].
Qed.

(** X6.  The only thing that keeps a control function from returning
    [true] is a refused [offboard.start()] or [offboard.stop()]: on
    every run that does not return [true] such a refusal is in the
    trace. *)
Theorem X6_control_fails_on_refusal_only :
  forall env n,
    Forall fails_on_refusal_only
      [ OffboardVelocity.offb_ctrl_attitude env n;
        OffboardVelocityWorking.offb_ctrl_ned env n;
        OffboardVelocityWorking.offb_ctrl_body env n;
        OffboardVelocityWorking.offb_ctrl_attitude env n;
        OffboardAttitudeControl.offb_ctrl_attitude env n;
        OffboardPositionControl.offb_ctrl_ned env n;
        OffboardPositionControl.offb_ctrl_body env n;
        OffboardPositionControl.offb_ctrl_attitude env n ].
Proof.
  intros env n.
  repeat apply Forall_cons; try apply Forall_nil;
    unfold fails_on_refusal_only.
  all: open_programs; exec; intros Hret;
    try (contradiction Hret; reflexivity).
  all: find_refusal.
Qed.

(** X7.  Given one argument, a connection, an autopilot, every action
    and offboard command accepted, the vehicle in the air in time and
    on the ground again from some point on, all seven programs return
    0, whatever the mocap and vision messages come back with. *)
Theorem X7_accepted_missions_succeed :
  forall env bin_name connection_url fuel bound,
    accepting env ->
    lands_by bound env ->
    bound < fuel ->
    Forall (fun r : Outcome Z * Trace => outcome r = Returned 0%Z)
      [ OffboardVelocity.main bin_name [connection_url] env 0;
        OffboardVelocityWorking.main fuel bin_name [connection_url] env 0;
        OffboardAttitudeControl.main bin_name [connection_url] env 0;
        OffboardTelemetryHealth.main bin_name [connection_url] env 0;
        OffboardReadBlocking.main bin_name [connection_url] env 0;
        OffboardVision.main bin_name [connection_url] env 0;
        OffboardPositionControl.main fuel bin_name [connection_url] env 0 ].
Proof.
  intros env bin_name connection_url fuel bound Hacc Hland Hlt.
  repeat apply Forall_cons; try apply Forall_nil.
  all: open_programs; exec_accepted Hacc.
  all: try sweep_landed.
  all: reflexivity.
Qed.
(** X8.  [wait_until_discover] of offboard_velocity.cpp waits with
    [discover_future.wait()], without a timeout: [main] blocks for ever
    exactly when no system shows up, and it has made no plugin then. *)
Theorem X8_discovery_without_timeout :
  forall bin_name args env n,
    waits_for_ever (OffboardVelocity.main bin_name args env n).
Proof.
  intros bin_name args env n. unfold waits_for_ever.
  open_programs; destruct args as [| a [| b l]]; exec.
  all: split; [intros t found H; split_In H; reflexivity |].
  all: split;
    [ split;
      [ intros H; first [discriminate H | solve [find_In]]
      | intros H; first [reflexivity | split_In H] ]
    | intros H; first [discriminate H | intros p s H'; split_In H'] ].
Qed.

(** X9.  How the programs end.  [main] of
    offboard_attitude_control.cpp, offboard_telemetry_health.cpp,
    offboard_read_blocking.cpp and of the first unit of
    offboard_vision.cpp always returns, 0 or 1.  [main] of
    offboard_velocity_working.cpp and of the second unit of
    offboard_vision.cpp returns 0 or 1 unless it stays in the landing
    wait.  [main] of offboard_velocity.cpp returns 0 or 1, is ended by
    [exit(EXIT_FAILURE)], or blocks in the discovery. *)
Theorem X9_exit_statuses :
  forall bin_name args env n fuel,
    Forall (fun r : Outcome Z * Trace =>
              outcome r = Returned 0%Z \/ outcome r = Returned 1%Z)
      [ OffboardAttitudeControl.main bin_name args env n;
        OffboardTelemetryHealth.main bin_name args env n;
        OffboardReadBlocking.main bin_name args env n;
        OffboardVision.main bin_name args env n ] /\
    Forall (fun r : Outcome Z * Trace =>
              outcome r = Returned 0%Z \/ outcome r = Returned 1%Z \/
              outcome r = OutOfFuel)
      [ OffboardVelocityWorking.main fuel bin_name args env n;
        OffboardPositionControl.main fuel bin_name args env n ] /\
    (outcome (OffboardVelocity.main bin_name args env n)
       = Returned EXIT_SUCCESS \/
     outcome (OffboardVelocity.main bin_name args env n) = Returned 1%Z \/
     outcome (OffboardVelocity.main bin_name args env n)
       = Exited EXIT_FAILURE \/
     outcome (OffboardVelocity.main bin_name args env n) = Hangs).
Proof.
  intros bin_name args env n fuel.
  split; [| split].
  1, 2: repeat apply Forall_cons; try apply Forall_nil.
  all: open_programs; destruct args as [| a [| b l]]; exec.
  all: cbn; tauto.
Qed.

(** X10.  In the two programs that take off, no setpoint is sent and
    offboard mode is not started before [action.takeoff()] has
    succeeded; in offboard_velocity_working.cpp not before the second
    wait has found the vehicle in the air either. *)
Theorem X10_takeoff_before_offboard :
  forall bin_name args env n fuel,
    Forall (only_after is_takeoff_ok is_offboard)
      [ OffboardVelocityWorking.main fuel bin_name args env n;
        OffboardPositionControl.main fuel bin_name args env n ] /\
    only_after is_in_air_confirmed is_offboard
      (OffboardVelocityWorking.main fuel bin_name args env n).
Proof.
  intros bin_name args env n fuel. split.
  1: repeat apply Forall_cons; try apply Forall_nil.
  all: unfold only_after; intros pre e post; apply preceded_correct.
  all: open_programs; destruct args as [| a [| b l]]; exec.
  all: first [reflexivity | apply preceded_seen].
Qed.

(** X11.  [action.land()] and [action.kill()] are only called after
    [offboard.start()] has been accepted; in the second unit of
    offboard_vision.cpp, [action.land()] is only called after
    [offboard.stop()] has been accepted too. *)
Theorem X11_land_or_kill_after_accepted_start :
  forall bin_name args env n fuel,
    Forall (only_after is_start_ok is_land_or_kill)
      [ OffboardVelocity.main bin_name args env n;
        OffboardVelocityWorking.main fuel bin_name args env n;
        OffboardAttitudeControl.main bin_name args env n;
        OffboardPositionControl.main fuel bin_name args env n ] /\
    only_after is_stop_ok is_land_or_kill
      (OffboardPositionControl.main fuel bin_name args env n).
Proof.
  intros bin_name args env n fuel. split.
  1: repeat apply Forall_cons; try apply Forall_nil.
  all: unfold only_after; intros pre e post; apply preceded_correct.
  all: open_programs; destruct args as [| a [| b l]]; exec.
  all: first [reflexivity | apply preceded_seen].
Qed.

(** X12.  The telemetry callbacks of offboard_telemetry_health.cpp
    return and only write on [cout].  [print_health] writes seven
    lines, and the number of them that say "not ok" is the number of
    checks of the sample that failed. *)
Theorem X12_health_report :
  forall health show_float rc_status env n,
    outcome
      (OffboardTelemetryHealth.print_rc_status show_float rc_status env n)
      = Returned tt /\
    Forall (fun e => exists items, e = Print cout items)
      (trace
         (OffboardTelemetryHealth.print_rc_status show_float rc_status
            env n)) /\
    outcome (OffboardTelemetryHealth.print_health health env n)
      = Returned tt /\
    List.length (trace (OffboardTelemetryHealth.print_health health env n))
      = 7 /\
    Forall (fun e => exists items, e = Print cout items)
      (trace (OffboardTelemetryHealth.print_health health env n)) /\
    List.length
      (filter prints_not_ok
         (trace (OffboardTelemetryHealth.print_health health env n)))
      = failed_checks health.
Proof.
  intros [gyro accel mag loc glob home] show_float rc_status env n.
  split; [reflexivity | split; [| split; [reflexivity | split; [reflexivity | split]]]].
  - repeat constructor; eexists; reflexivity.
  - repeat constructor; eexists; reflexivity.
  - destruct gyro, accel, mag, loc, glob, home; reflexivity.
Qed.

(** X13.  In [offb_ctrl_body] of offboard_velocity_working.cpp and of
    the second unit of offboard_vision.cpp, [circle] is not reset
    between "Fly a circle" and "Fly a circle sideways": the setpoint
    sent for the sideways circle has [right_m_s = -5] and still
    [forward_m_s = 5]. *)
Theorem X13_sideways_circle_keeps_forward :
  forall env n,
    Forall sideways_circle_keeps_forward
      [ OffboardVelocityWorking.offb_ctrl_body env n;
        OffboardPositionControl.offb_ctrl_body env n ].
Proof.
  intros env n.
  repeat apply Forall_cons; try apply Forall_nil;
    unfold sideways_circle_keeps_forward.
  all: open_programs; exec; intros H.
  all: try solve [split_In H].
  all: match goal with
       | |- exists pre circle post, ?tr = _ /\ _ =>
           exists (firstn 19 tr); eexists; eexists
       end.
  all: split; [cbn; reflexivity | repeat split].
Qed.
(** X14.  A run of [offb_ctrl_ned] of the second unit of
    offboard_vision.cpp that returns [true] sends the zero velocity
    that primes offboard mode and then only position setpoints, all at
    [down_m = -2] with yaw 0; the last one is the first one again. *)
Theorem X14_position_control_closed_path :
  forall env n,
    flies_closed_path (OffboardPositionControl.offb_ctrl_ned env n).
Proof.
  intros env n. unfold flies_closed_path.
  open_programs; exec; intros Hret; try discriminate Hret.
  eexists. eexists (_ :: _ :: _ :: []).
  split; [cbn; reflexivity |].
  split; [split; reflexivity |].
  repeat constructor.
Qed.

(** X15.  Once [main] of offboard_read_blocking.cpp has made the
    telemetry plugin it returns 0, having read 130 telemetry values,
    thirteen in each of ten rounds, and polled [in_air] ten times. *)
Theorem X15_read_blocking_rounds :
  forall bin_name args env n,
    reads_ten_rounds (OffboardReadBlocking.main bin_name args env n).
Proof.
  intros bin_name args env n. unfold reads_ten_rounds.
  open_programs; destruct args as [| a [| b l]]; exec.
  all: intros s' H; split_In H.
  all: split; [reflexivity |].
  all: cbn; rewrite !filter_app, !length_app.
  all: match goal with
       | Hloop : for_loop ?from ?count _ ?e ?i = (_, ?L) |- _ =>
           pose proof (read_all_gets count from e i) as Hgets;
           pose proof (read_all_polls count from e i) as Hpolls;
           rewrite Hloop in Hgets, Hpolls; cbn in Hgets, Hpolls;
           rewrite Hgets, Hpolls
       end.
  all: split; reflexivity.
Qed.

(** X16.  In the six programs that use [get_system], a message is
    written on [cerr] exactly on the runs that return 1.  In
    offboard_velocity.cpp a message is written on [cerr] exactly on the
    runs ended by [exit(EXIT_FAILURE)]: on the runs that return, with 0
    or with 1, nothing is written on [cerr]. *)
Theorem X16_cerr_iff_failure :
  forall bin_name args env n fuel,
    Forall complains_iff_fails
      [ OffboardVelocityWorking.main fuel bin_name args env n;
        OffboardAttitudeControl.main bin_name args env n;
        OffboardTelemetryHealth.main bin_name args env n;
        OffboardReadBlocking.main bin_name args env n;
        OffboardVision.main bin_name args env n;
        OffboardPositionControl.main fuel bin_name args env n ] /\
    (outcome (OffboardVelocity.main bin_name args env n)
       = Exited EXIT_FAILURE <->
     exists items,
       In (Print cerr items)
          (trace (OffboardVelocity.main bin_name args env n))).
Proof.
  intros bin_name args env n fuel. split.
  1: repeat apply Forall_cons; try apply Forall_nil;
    unfold complains_iff_fails.
  all: open_programs; destruct args as [| a [| b l]];
    exec_off_cerr; loops_off_cerr.
  all: split;
    [ intros H; first [discriminate H | eexists; solve [find_In]]
    | intros [items H]; first [reflexivity | split_In H] ].
Qed.
(** X17.  [get_system] removes its callback with
    [subscribe_on_new_system(nullptr)] exactly on the runs on which an
    autopilot was found within the three seconds.
    [wait_until_discover] of offboard_velocity.cpp never removes its
    callback. *)
Theorem X17_discovery_subscription :
  forall bin_name args env n fuel,
    Forall unsubscribes_on_discovery
      [ OffboardVelocityWorking.main fuel bin_name args env n;
        OffboardAttitudeControl.main bin_name args env n;
        OffboardTelemetryHealth.main bin_name args env n;
        OffboardReadBlocking.main bin_name args env n;
        OffboardVision.main bin_name args env n;
        OffboardPositionControl.main fuel bin_name args env n ] /\
    ~ In UnsubscribeOnNewSystem
        (trace (OffboardVelocity.main bin_name args env n)).
Proof.
  intros bin_name args env n fuel. split.
  1: repeat apply Forall_cons; try apply Forall_nil;
    unfold unsubscribes_on_discovery.
  all: open_programs; destruct args as [| a [| b l]]; exec.
  all: try solve [intros H; split_In H].
  all: split;
    [ intros H; first [eexists; solve [find_In] | split_In H]
    | intros [s' H]; first [solve [find_In] | split_In H] ].
Qed.

(** X18.  offboard_velocity.cpp sends its mocap message once, before
    [action.arm()] is called, with 21 covariance entries; the size that
    is printed is taken before they are appended and is 0. *)
Theorem X18_mocap_message :
  forall bin_name args env n,
    sends_one_mocap_message (OffboardVelocity.main bin_name args env n).
Proof.
  intros bin_name args env n. unfold sends_one_mocap_message.
  intros m res H.
  split; [| split; [| split]].
  4: { unfold only_after. intros pre e post. apply preceded_correct.
       clear H.
       open_programs; destruct args as [| a [| b l]]; exec.
       all: first [reflexivity | apply preceded_seen]. }
  all: revert H.
  all: open_programs; destruct args as [| a [| b l]]; exec.
  all: intros H; split_In H.
  all: first [reflexivity | solve [find_In]].
Qed.
(** X19.  In offboard_velocity_working.cpp the result of the first,
    ten second wait for the vehicle to be in the air is not looked at:
    the three second wait is made in any case and it alone decides.
    When it times out [main] writes "Takeoff timed out." and returns 1
    without having sent a setpoint or started offboard mode; the message
    is written on no other run.  The callback of the landed state
    removes itself at most once. *)
Theorem X19_second_wait_decides :
  forall bin_name args env n fuel,
    second_wait_decides
      (OffboardVelocityWorking.main fuel bin_name args env n).
Proof.
  intros bin_name args env n fuel. unfold second_wait_decides.
  open_programs; destruct args as [| a [| b l]]; exec_off_cerr.
  all: split;
    [ intros ready H; split_In H; eexists; solve [find_In] | ].
  all: split;
    [ split; intros H; first [solve [find_In] | split_In H] | ].
  all: split;
    [ intros H; split_In H;
      (split; [reflexivity | intros e He Hp; event_cases He Hp])
    | count_events ].
Qed.
End Extras.

(* ================================================================== *)
(** * The further properties at concrete inputs *)
(* ================================================================== *)

(** X1 at a concrete input: the vehicle is reported on the ground from
    the fifth event on, which the third poll finds. *)
Lemma X1_witness :
  Shared.landing_wait (F := QFloat.impl) 5 (env_lands_at (F := QFloat.impl) 5) 0
  = (Returned tt, landing_rounds 2 ++ [TelemetryInAir false]).
Proof.
  apply (@X1_landing_wait_ends_on_ground QFloat.impl 2 5
           (env_lands_at (F := QFloat.impl) 5) 0).
  - intros j Hj. destruct j as [| [| j]]; [reflexivity | reflexivity | lia].
  - reflexivity.
  - lia.
Defined.

(** X2 at a concrete input: three rounds allowed, the vehicle never
    lands. *)
Lemma X2_witness :
  Forall (stuck_in_landing_wait 3)
    [ OffboardVelocityWorking.main (F := QFloat.impl) 3 "offboard" [url]
        env_stays_in_air 0;
      OffboardPositionControl.main (F := QFloat.impl) 3 "offboard" [url]
        env_stays_in_air 0 ].
Proof.
  apply (@X2_no_landing_no_end QFloat.impl).
  - intros i. cbn. repeat split. discriminate.
  - intros i. reflexivity.
Defined.

(** X3 with the executable floats: the quotient is 628, [steps] is
    1256. *)
Lemma X3_witness :
  (unsigned_of_float
     (fdiv (OffboardVelocityWorking.one_cycle (F := QFloat.impl))
        OffboardVelocityWorking.step_size) < 2 ^ 31)%N /\
  OffboardVelocityWorking.steps (F := QFloat.impl)
  = (2 * unsigned_of_float
           (fdiv (OffboardVelocityWorking.one_cycle (F := QFloat.impl))
              OffboardVelocityWorking.step_size))%N.
Proof.
  assert (H : (unsigned_of_float
                 (fdiv (OffboardVelocityWorking.one_cycle (F := QFloat.impl))
                    OffboardVelocityWorking.step_size) < 2 ^ 31)%N)
    by (vm_compute; reflexivity).
  split; [exact H |].
  exact (proj2 (proj2 (@X3_steps_wrap_around QFloat.impl)) H).
Defined.

(** X4 at a concrete input: every command accepted. *)
Lemma X4_witness :
  List.length
    (filter is_setpoint
       (trace (OffboardVelocityWorking.offb_ctrl_ned (F := QFloat.impl)
                 env_ok 0)))
  = N.to_nat (OffboardVelocityWorking.steps (F := QFloat.impl)) + 5.
Proof.
  apply (@X4_ned_loop_setpoints QFloat.impl env_ok 0).
  open_programs. exec. reflexivity.
Defined.

(** X6 at a concrete input: the offboard plugin refuses the start. *)
Lemma X6_witness :
  exists e,
    In e (trace (OffboardVelocityWorking.offb_ctrl_body (F := QFloat.impl)
                   env_offboard_refused 0)) /\
    offboard_failure e = true.
Proof.
  pose proof (@X6_control_fails_on_refusal_only QFloat.impl
                env_offboard_refused 0) as Hall.
  apply Forall_inv_tail, Forall_inv_tail, Forall_inv in Hall.
  apply Hall. open_programs. exec. discriminate.
Defined.

(** X7 at a concrete input: the vehicle is reported on the ground from
    the fortieth event on. *)
Lemma X7_witness :
  Forall (fun r : Outcome Z * Trace => outcome r = Returned 0%Z)
    [ OffboardVelocity.main (F := QFloat.impl) "offboard" [url]
        (env_lands_at (F := QFloat.impl) 40) 0;
      OffboardVelocityWorking.main 41 "offboard" [url] (env_lands_at (F := QFloat.impl) 40) 0;
      OffboardAttitudeControl.main "offboard" [url] (env_lands_at (F := QFloat.impl) 40) 0;
      OffboardTelemetryHealth.main "offboard" [url] (env_lands_at (F := QFloat.impl) 40) 0;
      OffboardReadBlocking.main "offboard" [url] (env_lands_at (F := QFloat.impl) 40) 0;
      OffboardVision.main "offboard" [url] (env_lands_at (F := QFloat.impl) 40) 0;
      OffboardPositionControl.main 41 "offboard" [url] (env_lands_at (F := QFloat.impl) 40) 0 ].
Proof.
  apply (@X7_accepted_missions_succeed QFloat.impl) with (bound := 40).
  - intros i. cbn. repeat split. discriminate.
  - intros i Hi. cbn. apply Nat.leb_gt. lia.
  - lia.
Defined.

(** X8 at a concrete input: no system shows up. *)
Lemma X8_witness :
  outcome (OffboardVelocity.main (F := QFloat.impl) "offboard" [url]
             env_no_autopilot 0) = Hangs.
Proof.
  apply (@X8_discovery_without_timeout QFloat.impl "offboard" [url]
           env_no_autopilot 0).
  in_run.
Defined.

(** X10 at a concrete input: the second unit of offboard_vision.cpp,
    every command accepted; its first setpoint comes after the take-off. *)
Lemma X10_witness :
  exists a,
    In a (plugins_prefix ++
          [ ActionCall Action.Arm Action.Success;
            Print cout [Txt "Armed"; Nl];
            ActionCall Action.Takeoff Action.Success;
            Sleep (seconds 8);
            Print cout
              [Txt "Starting Offboard velocity control in NED coordinates";
               Nl] ]) /\
    is_takeoff_ok a = true.
Proof.
  pose proof (proj1 (@X10_takeoff_before_offboard QFloat.impl
                       "offboard" [url] env_ok 0 1))
    as Hall.
  apply Forall_inv_tail, Forall_inv in Hall.
  eapply Hall; [reflexivity | reflexivity].
Defined.

(** X11 at a concrete input: offboard_attitude_control.cpp, every command
    accepted; the motors are killed after the accepted start. *)
Lemma X11_witness :
  exists a,
    In a (firstn 38
            (trace (OffboardAttitudeControl.main (F := QFloat.impl)
                      "offboard" [url] env_ok 0))) /\
    is_start_ok a = true.
Proof.
  pose proof (proj1 (@X11_land_or_kill_after_accepted_start QFloat.impl
                       "offboard" [url] env_ok 0 1))
    as Hall.
  apply Forall_inv_tail, Forall_inv_tail, Forall_inv in Hall.
  eapply Hall; [reflexivity | reflexivity].
Defined.

(** X13 at a concrete input: every command accepted. *)
Lemma X13_witness :
  exists pre circle post,
    trace (OffboardVelocityWorking.offb_ctrl_body (F := QFloat.impl)
             env_ok 0) =
      pre ++
      [ Print cout [Txt "Fly a circle sideways"; Nl];
        OffboardSet (Offboard.SetVelocityBody circle);
        Sleep (seconds 15) ] ++ post /\
    Offboard.forward_m_s circle = lit 5 /\
    Offboard.right_m_s circle = lit (-5) /\
    Offboard.vb_down_m_s circle = lit 0 /\
    Offboard.yawspeed_deg_s circle = lit 30.
Proof.
  pose proof (@X13_sideways_circle_keeps_forward QFloat.impl env_ok 0)
    as Hall.
  apply Forall_inv in Hall.
  apply Hall. in_run.
Defined.

(** X14 at a concrete input: every command accepted. *)
Lemma X14_witness :
  exists origin legs,
    setpoints
      (trace (OffboardPositionControl.offb_ctrl_ned (F := QFloat.impl)
                env_ok 0))
    = Offboard.SetVelocityNed Offboard.VelocityNedYaw0
      :: Offboard.SetPositionNed origin
      :: legs ++ [Offboard.SetPositionNed origin] /\
    holds_altitude (Offboard.SetPositionNed origin) /\
    Forall holds_altitude legs.
Proof.
  apply (@X14_position_control_closed_path QFloat.impl env_ok 0).
  open_programs. exec. reflexivity.
Defined.

(** X15 at a concrete input: an autopilot is found. *)
Lemma X15_witness :
  outcome (OffboardReadBlocking.main (F := QFloat.impl) "offboard" [url]
             env_ok 0) = Returned 0%Z /\
  List.length
    (filter is_telemetry_get
       (trace (OffboardReadBlocking.main (F := QFloat.impl) "offboard" [url]
                 env_ok 0))) = 130 /\
  List.length
    (filter is_in_air_poll
       (trace (OffboardReadBlocking.main (F := QFloat.impl) "offboard" [url]
                 env_ok 0))) = 10.
Proof.
  apply (@X15_read_blocking_rounds QFloat.impl "offboard" [url] env_ok 0 1).
  in_run.
Defined.

(** X18 at a concrete input: the mocap message is refused, the program
    goes on. *)
Lemma X18_witness :
  exists m,
    In (MocapAttitudePosition m (Mocap.Error 3))
       (trace (OffboardVelocity.main (F := QFloat.impl) "offboard" [url]
                 env_mocap_refused 0)) /\
    List.length (Mocap.apm_covariance_matrix m) = 21 /\
    In (Print cout [Txt "Size:"; ShowSize 0])
       (trace (OffboardVelocity.main (F := QFloat.impl) "offboard" [url]
                 env_mocap_refused 0)).
Proof.
  assert (Hin : In (MocapAttitudePosition
                      (OffboardVelocity.mocap_msg (F := QFloat.impl) [])
                      (Mocap.Error 3))
                  (trace (OffboardVelocity.main (F := QFloat.impl)
                            "offboard" [url] env_mocap_refused 0)))
    by in_run.
  pose proof (@X18_mocap_message QFloat.impl "offboard" [url]
                env_mocap_refused 0 _ _ Hin) as (Hlen & Hsize & _).
  eexists. split; [exact Hin | split; [exact Hlen | exact Hsize]].
Defined.

(** X19 at a concrete input: the vehicle does not get into the air. *)
Lemma X19_witness :
  outcome (OffboardVelocityWorking.main (F := QFloat.impl) 1 "offboard" [url]
             env_stays_on_ground 0) = Returned 1%Z /\
  forall e,
    In e (trace (OffboardVelocityWorking.main (F := QFloat.impl) 1
                   "offboard" [url] env_stays_on_ground 0)) ->
    is_offboard e = true -> False.
Proof.
  apply (proj1 (proj2 (proj2
           (@X19_second_wait_decides QFloat.impl "offboard" [url]
              env_stays_on_ground 0 1)))).
  in_run.
Defined.
